(** * TeleLink customer analytics backend ([back_end.py])

    A shallow embedding of the scoring-to-decision pipeline of the
    FastAPI service: the two threshold ladders ([get_recommendation],
    [get_confidence_level]), the risk ladder of the two handlers, and the
    handlers [predict_customer] and [batch_predict] with their error
    mapping.

    Python's [float] is an IEEE 754 binary64 number.  It is modelled by the
    standard library's [spec_float] at precision 53 and maximal exponent
    1024, whose comparison and subtraction are exact, executable
    specifications of the hardware operations. *)

From Stdlib Require Import ZArith Lia Bool List String Ascii.
From Stdlib Require Import Floats.SpecFloat.
Import ListNotations.

Local Open Scope string_scope.
Local Open Scope Z_scope.

(** ** Python floats *)

Module PyFloat.

Definition prec : Z := 53.
Definition emax : Z := 1024.

Definition float : Type := spec_float.

(** [a < b], [a > b], [a <= b], [a >= b] on floats.  Every comparison
    with a NaN is false. *)
Definition lt (a b : float) : bool := SFltb a b.
Definition gt (a b : float) : bool := SFltb b a.
Definition le (a b : float) : bool := SFleb a b.
Definition ge (a b : float) : bool := SFleb b a.

(** [a - b], rounded to nearest, ties to even. *)
Definition sub (a b : float) : float := SFsub prec emax a b.

(** An integer literal, as a float. *)
Definition of_int (n : Z) : float := binary_normalize prec emax n 0 false.

(** The decimal literal [n / d] (for instance [0.4] is [decimal 4 10]): the
    float nearest to the rational, which the correctly rounded quotient
    of the two exactly represented integers gives. *)
Definition decimal (n d : Z) : float :=
  SFdiv prec emax (of_int n) (of_int d).

Definition valid (x : float) : bool := valid_binary prec emax x.

(** The literals of [back_end.py], and [1.0]. *)
Definition f0_1 : float := S754_finite false 7205759403792794 (-56).
Definition f0_2 : float := S754_finite false 7205759403792794 (-55).
Definition f0_3 : float := S754_finite false 5404319552844595 (-54).
Definition f0_4 : float := S754_finite false 7205759403792794 (-54).
Definition f0_7 : float := S754_finite false 6305039478318694 (-53).
Definition f0_8 : float := S754_finite false 7205759403792794 (-53).
Definition f0_9 : float := S754_finite false 8106479329266893 (-53).
Definition f1 : float := S754_finite false 4503599627370496 (-52).
Definition f0 : float := S754_zero false.
Definition f30000 : float := S754_finite false 8246337208320000 (-38).
Definition f40000 : float := S754_finite false 5497558138880000 (-37).

(** [0 <= p <= 1]: the declared domain of a churn probability. *)
Definition in_unit (p : float) : bool := le f0 p && le p f1.

End PyFloat.

Import PyFloat.

(** ** The decision engine *)

Definition rec_critical : string :=
  "🚨 CRITICAL: High-value customer at severe risk. Immediate executive intervention required. Offer premium retention package.".
Definition rec_high_priority : string :=
  "⚠️ HIGH PRIORITY: Customer likely to churn. Assign dedicated account manager and offer targeted incentives within 24 hours.".
Definition rec_proactive : string :=
  "📞 PROACTIVE: Valuable customer showing warning signs. Schedule personal check-in call and present loyalty rewards.".
Definition rec_monitor : string :=
  "👀 MONITOR: Elevated churn risk detected. Increase engagement through personalized offers and service improvements.".
Definition rec_nurture : string :=
  "⭐ NURTURE: High-value loyal customer. Continue VIP treatment and explore upsell opportunities.".
Definition rec_maintain : string :=
  "✅ MAINTAIN: Healthy customer relationship. Continue standard engagement and periodic satisfaction surveys.".

(** [get_recommendation(churn_prob, clv)] *)
Definition get_recommendation (churn_prob clv : float) : string :=
  if gt churn_prob f0_4 then
    if gt clv f30000 then rec_critical else rec_high_priority
  else if gt churn_prob f0_2 then
    if gt clv f30000 then rec_proactive else rec_monitor
  else
    if gt clv f40000 then rec_nurture else rec_maintain.

(** [get_confidence_level(churn_prob)] *)
Definition get_confidence_level (churn_prob : float) : string :=
  if lt churn_prob f0_1 || gt churn_prob f0_9 then "Very High"
  else if lt churn_prob f0_2 || gt churn_prob f0_8 then "High"
  else if lt churn_prob f0_3 || gt churn_prob f0_7 then "Moderate"
  else "Low".

(** The risk ladder of [predict_customer] (an [if]/[elif]/[else]
    statement assigning [risk_level]). *)
Definition risk_level_predict (churn_prob : float) : string :=
  if gt churn_prob f0_4 then "High"
  else if gt churn_prob f0_2 then "Medium"
  else "Low".

(** The risk ladder of [batch_predict] (a chained conditional
    expression). *)
Definition risk_level_batch (churn_prob : float) : string :=
  if gt churn_prob f0_4 then "High"
  else (if gt churn_prob f0_2 then "Medium" else "Low").

(** ** Request and response data *)

(** [class CustomerData(BaseModel)] *)
Record CustomerData := {
  accountLength : Z;
  state : string;
  areaCode : string;
  internationalPlan : string;
  voiceMailPlan : string;
  numberOfVmailMessages : Z;
  totalDayCalls : Z;
  totalEveCalls : Z;
  totalNightCalls : Z;
  totalIntlCalls : Z;
  customerServiceCalls : Z
}.

(** [class PredictionResponse(BaseModel)] *)
Record PredictionResponse := {
  churn_probability : float;
  churn_risk : string;
  estimated_clv : float;
  recommendation : string;
  confidence : string
}.

(** A cell of a data frame, and a data frame as its columns in insertion
    order, each column a list of rows. *)
Inductive cell := CInt (n : Z) | CStr (s : string).
Definition DataFrame : Type := list (string * list cell).

(** [prepare_input_data(customer)] *)
Definition prepare_input_data (customer : CustomerData) : DataFrame :=
  [ ("Account length", [CInt (accountLength customer)]);
    ("International plan", [CStr (internationalPlan customer)]);
    ("Voice mail plan", [CStr (voiceMailPlan customer)]);
    ("Number vmail messages", [CInt (numberOfVmailMessages customer)]);
    ("Total day calls", [CInt (totalDayCalls customer)]);
    ("Total eve calls", [CInt (totalEveCalls customer)]);
    ("Total night calls", [CInt (totalNightCalls customer)]);
    ("Total intl calls", [CInt (totalIntlCalls customer)]);
    ("Customer service calls", [CInt (customerServiceCalls customer)]);
    ("State", [CStr (state customer)]);
    ("Area code", [CStr (areaCode customer)]) ].

(** A value of a response dictionary, and a dictionary as its items in
    insertion order. *)
Inductive pyval := VFloat (x : float) | VStr (s : string).
Definition dict : Type := list (string * pyval).

(** The fields of a [PredictionResponse], as the dictionary it serialises
    to. *)
Definition model_dump (r : PredictionResponse) : dict :=
  [ ("churn_probability", VFloat (churn_probability r));
    ("churn_risk", VStr (churn_risk r));
    ("estimated_clv", VFloat (estimated_clv r));
    ("recommendation", VStr (recommendation r));
    ("confidence", VStr (confidence r)) ].

(** The value [batch_predict] returns:
    [{"predictions": results, "count": len(results)}]. *)
Record BatchResponse := {
  predictions : list dict;
  count : Z
}.

(** ** Exceptions and the opaque models *)

(** An instance of [Exception], as far as the handlers look at it:
    [str(e)]. *)
Record PyException := { exc_str : string }.

(** [HTTPException(status_code=..., detail=...)] *)
Record HTTPException := { status_code : Z; detail : string }.

(** The churn classifier, as the handlers use it: the outcome of
    [churn_model.predict_proba(input_data)[0][1]], the probability of class
    1 for the single row, or the exception raised by the call or the
    indexing. *)
Record ChurnModel := {
  predict_proba : DataFrame -> PyException + float
}.

(** The value regressor: the outcome of [clv_model.predict(input_data)[0]]. *)
Record ClvModel := {
  predict : DataFrame -> PyException + float
}.

(** ** Computations that log the components they invoke and may raise *)

Inductive event :=
| EvPrepare (customer : CustomerData)
| EvPredictProba (input_data : DataFrame)
| EvPredict (input_data : DataFrame)
| EvRecommendation (churn_prob clv : float)
| EvConfidence (churn_prob : float).

Module Run.

(** A computation from the log so far to the extended log and either a
    raised exception of type [E] or a value. *)
Definition t (E A : Type) : Type := list event -> list event * (E + A).

Definition ret {E A} (a : A) : t E A := fun log => (log, inr a).

Definition raise {E A} (e : E) : t E A := fun log => (log, inl e).

Definition bind {E A B} (c : t E A) (k : A -> t E B) : t E B :=
  fun log =>
    match c log with
    | (log', inr a) => k a log'
    | (log', inl e) => (log', inl e)
    end.

(** [try: c except Exception as e: h e] *)
Definition try_except {E E' A} (c : t E A) (h : E -> t E' A) : t E' A :=
  fun log =>
    match c log with
    | (log', inr a) => (log', inr a)
    | (log', inl e) => h e log'
    end.

(** Invoke a component: log the call, then return or raise its outcome. *)
Definition call {E A} (ev : event) (outcome : E + A) : t E A :=
  fun log => ((log ++ [ev])%list, outcome).

End Run.

Declare Scope run_scope.
Delimit Scope run_scope with run.
Notation "x <- c ;; k" := (Run.bind c (fun x => k))
  (at level 61, c at next level, right associativity) : run_scope.

Local Open Scope run_scope.

(** ** The request handlers *)

Section Handlers.

(** The two module-level model handles: [None] when loading failed. *)
Variable churn_model : option ChurnModel.
Variable clv_model : option ClvModel.

(** The body of the [try] block of [predict_customer].  The scores are
    floats, on which [float(...)] is the identity; of the statements of the
    block only the two model calls can raise. *)
Definition predict_customer_body (cm : ChurnModel) (vm : ClvModel)
    (customer : CustomerData) : Run.t PyException PredictionResponse :=
  input_data <- Run.call (EvPrepare customer) (inr (prepare_input_data customer)) ;;
  churn_prob <- Run.call (EvPredictProba input_data) (predict_proba cm input_data) ;;
  estimated_clv <- Run.call (EvPredict input_data) (predict vm input_data) ;;
  let risk_level := risk_level_predict churn_prob in
  recommendation <- Run.call (EvRecommendation churn_prob estimated_clv)
                      (inr (get_recommendation churn_prob estimated_clv)) ;;
  confidence <- Run.call (EvConfidence churn_prob)
                  (inr (get_confidence_level churn_prob)) ;;
  Run.ret {| churn_probability := churn_prob;
             churn_risk := risk_level;
             estimated_clv := estimated_clv;
             recommendation := recommendation;
             confidence := confidence |}.

(** [POST /predict]: the check [churn_model is None or clv_model is None],
    then the [try] block with its [except Exception as e] clause. *)
Definition predict_customer (customer : CustomerData)
    : Run.t HTTPException PredictionResponse :=
  match churn_model, clv_model with
  | None, _ | _, None =>
      Run.raise {| status_code := 503;
                   detail := "ML models not loaded. Please ensure model files are available." |}
  | Some cm, Some vm =>
      Run.try_except (predict_customer_body cm vm customer)
        (fun e => Run.raise {| status_code := 500;
                               detail := "Prediction error: " ++ exc_str e |})
  end.

(** The [for] loop of [batch_predict], from the customers still to score
    and the [results] appended so far. *)
Fixpoint batch_predict_loop (cm : ChurnModel) (vm : ClvModel)
    (customers : list CustomerData) (results : list dict)
    : Run.t PyException (list dict) :=
  match customers with
  | [] => Run.ret results
  | customer :: rest =>
      input_data <- Run.call (EvPrepare customer) (inr (prepare_input_data customer)) ;;
      churn_prob <- Run.call (EvPredictProba input_data) (predict_proba cm input_data) ;;
      estimated_clv <- Run.call (EvPredict input_data) (predict vm input_data) ;;
      let risk_level := risk_level_batch churn_prob in
      recommendation <- Run.call (EvRecommendation churn_prob estimated_clv)
                          (inr (get_recommendation churn_prob estimated_clv)) ;;
      confidence <- Run.call (EvConfidence churn_prob)
                      (inr (get_confidence_level churn_prob)) ;;
      batch_predict_loop cm vm rest
        (results ++ [ [ ("churn_probability", VFloat churn_prob);
                        ("churn_risk", VStr risk_level);
                        ("estimated_clv", VFloat estimated_clv);
                        ("recommendation", VStr recommendation);
                        ("confidence", VStr confidence) ] ])%list
  end.

(** The body of the [try] block of [batch_predict]. *)
Definition batch_predict_body (cm : ChurnModel) (vm : ClvModel)
    (customers : list CustomerData) : Run.t PyException BatchResponse :=
  results <- batch_predict_loop cm vm customers [] ;;
  Run.ret {| predictions := results; count := Z.of_nat (List.length results) |}.

(** [POST /batch-predict] *)
Definition batch_predict (customers : list CustomerData)
    : Run.t HTTPException BatchResponse :=
  match churn_model, clv_model with
  | None, _ | _, None =>
      Run.raise {| status_code := 503; detail := "ML models not loaded." |}
  | Some cm, Some vm =>
      Run.try_except (batch_predict_body cm vm customers)
        (fun e => Run.raise {| status_code := 500;
                               detail := "Batch prediction error: " ++ exc_str e |})
  end.

End Handlers.

(** * Vocabulary of the properties *)

(** ** Floats *)

Definition is_nan (x : float) : bool :=
  match x with S754_nan => true | _ => false end.

(** [0.5], [10000.0], [35000.0] and [50000.0]: a probability of the upper
    band and values on either side of both value thresholds. *)
Definition f0_5 : float := S754_finite false 4503599627370496 (-53).
Definition f10000 : float := S754_finite false 5497558138880000 (-39).
Definition f35000 : float := S754_finite false 4810363371520000 (-37).
Definition f50000 : float := S754_finite false 6871947673600000 (-37).

(** Round to nearest, ties to even, of the quotient [w / u]. *)
Definition rne (w u : Z) : Z :=
  let q := w / u in
  let r := w mod u in
  if 2 * r <? u then q
  else if u <? 2 * r then q + 1
  else if Z.even q then q else q + 1.

(** The shift record after [j] one-bit right shifts of [n]: the quotient,
    the last bit shifted out, and whether a bit before it was set. *)
Definition shr_state (n j : Z) : shr_record :=
  if j =? 0 then Build_shr_record n false false
  else Build_shr_record (n / 2 ^ j) (Z.odd (n / 2 ^ (j - 1)))
         (negb (n mod 2 ^ (j - 1) =? 0)).

(** The value of a float in units of [2^-105], the least exponent of a
    difference [1 - p] for [p] in [[1/2, 1)]. *)
Definition units (x : float) : Z :=
  match x with
  | S754_finite _ m e => Zpos m * 2 ^ (e + 105)
  | _ => 0
  end.

(** A positive float with a 53-bit mantissa and an exponent of at least
    [-105]. *)
Definition normal (x : float) : Prop :=
  match x with
  | S754_finite false m e => Zpos (digits2_pos m) = 53 /\ -105 <= e
  | _ => False
  end.

(** ** The decision engine *)

(** The six recommendation strings, in the order of the source, and the
    four confidence tiers. *)
Definition recommendation_catalog : list string :=
  [rec_critical; rec_high_priority; rec_proactive; rec_monitor;
   rec_nurture; rec_maintain].

Definition confidence_catalog : list string :=
  ["Very High"; "High"; "Moderate"; "Low"].

(** The probability band and the value band the recommendation depends
    on, and the table from the two bands to the six strings. *)
Inductive prob_band := BandHigh | BandMedium | BandLow.

Definition prob_band_of (p : float) : prob_band :=
  if gt p f0_4 then BandHigh
  else if gt p f0_2 then BandMedium
  else BandLow.

(** Whether [clv] is in the upper value band of a probability band: above
    30000 in the two upper probability bands, above 40000 in the low one. *)
Definition value_band_of (b : prob_band) (clv : float) : bool :=
  match b with
  | BandHigh | BandMedium => gt clv f30000
  | BandLow => gt clv f40000
  end.

Definition recommendation_table (b : prob_band) (upper_value : bool) : string :=
  match b, upper_value with
  | BandHigh, true => rec_critical
  | BandHigh, false => rec_high_priority
  | BandMedium, true => rec_proactive
  | BandMedium, false => rec_monitor
  | BandLow, true => rec_nurture
  | BandLow, false => rec_maintain
  end.

(** The risk tier named after a probability band, and the two
    recommendation strings of a band. *)
Definition band_name (b : prob_band) : string :=
  match b with
  | BandHigh => "High"
  | BandMedium => "Medium"
  | BandLow => "Low"
  end.

Definition band_recommendations (b : prob_band) : list string :=
  [recommendation_table b true; recommendation_table b false].

(** The confidence ladder on values in units of [2^-105]. *)
Definition confidence_of_units (u : Z) : string :=
  if (u <? units f0_1)%Z || (units f0_9 <? u)%Z then "Very High"
  else if (u <? units f0_2)%Z || (units f0_8 <? u)%Z then "High"
  else if (u <? units f0_3)%Z || (units f0_7 <? u)%Z then "Moderate"
  else "Low".

(** The floats of [0,1] at which the confidence tier of [p] and of the
    float [1 - p] differ: the five floats next below [0.1], the four floats
    next below [0.2], and [0.8] and [0.9]. *)
Definition asymmetric_points : list float :=
  [ S754_finite false 7205759403792789 (-56);
    S754_finite false 7205759403792790 (-56);
    S754_finite false 7205759403792791 (-56);
    S754_finite false 7205759403792792 (-56);
    S754_finite false 7205759403792793 (-56);
    S754_finite false 7205759403792790 (-55);
    S754_finite false 7205759403792791 (-55);
    S754_finite false 7205759403792792 (-55);
    S754_finite false 7205759403792793 (-55);
    f0_8; f0_9 ].

(** ** Scoring a customer *)

Section Scoring.

Variable cm : ChurnModel.
Variable vm : ClvModel.

(** The two scores of a customer, or the first exception the models
    raise: the churn model is asked first. *)
Definition score (customer : CustomerData) : PyException + (float * float) :=
  match predict_proba cm (prepare_input_data customer) with
  | inl e => inl e
  | inr p =>
      match predict vm (prepare_input_data customer) with
      | inl e => inl e
      | inr v => inr (p, v)
      end
  end.

(** The decision on a pair of scores, as [predict_customer] builds it. *)
Definition decide (p v : float) : PredictionResponse :=
  {| churn_probability := p;
     churn_risk := risk_level_predict p;
     estimated_clv := v;
     recommendation := get_recommendation p v;
     confidence := get_confidence_level p |}.

(** The components invoked for a customer whose scoring succeeds, in
    order. *)
Definition success_events (customer : CustomerData) (p v : float) : list event :=
  [ EvPrepare customer;
    EvPredictProba (prepare_input_data customer);
    EvPredict (prepare_input_data customer);
    EvRecommendation p v;
    EvConfidence p ].

(** The components invoked for a customer whose scoring fails: up to the
    model that raises. *)
Definition failure_events (customer : CustomerData) : list event :=
  match predict_proba cm (prepare_input_data customer) with
  | inl _ => [ EvPrepare customer;
               EvPredictProba (prepare_input_data customer) ]
  | inr _ => [ EvPrepare customer;
               EvPredictProba (prepare_input_data customer);
               EvPredict (prepare_input_data customer) ]
  end.

(** The components invoked for a customer, and the dictionary the batch
    loop appends for one that scores. *)
Definition events_of (customer : CustomerData) : list event :=
  match score customer with
  | inr (p, v) => success_events customer p v
  | inl _ => failure_events customer
  end.

Definition batch_item (customer : CustomerData) : dict :=
  match score customer with
  | inr (p, v) => model_dump (decide p v)
  | inl _ => []
  end.

Definition scores_ok (customer : CustomerData) : Prop :=
  exists p v, score customer = inr (p, v).

Definition scores_fail (customer : CustomerData) : Prop :=
  exists e, score customer = inl e.

End Scoring.

(** ** Sample requests and models *)

(** The example record of [CustomerData.Config], customers told apart by
    their account length, and models that answer with fixed scores or
    raise. *)
Definition example_customer : CustomerData :=
  {| accountLength := 128; state := "CA"; areaCode := "415";
     internationalPlan := "no"; voiceMailPlan := "yes";
     numberOfVmailMessages := 25; totalDayCalls := 110;
     totalEveCalls := 85; totalNightCalls := 95; totalIntlCalls := 3;
     customerServiceCalls := 1 |}.

Definition customer_of_length (n : Z) : CustomerData :=
  {| accountLength := n; state := "NY"; areaCode := "212";
     internationalPlan := "yes"; voiceMailPlan := "no";
     numberOfVmailMessages := 0; totalDayCalls := 70;
     totalEveCalls := 60; totalNightCalls := 50; totalIntlCalls := 9;
     customerServiceCalls := 4 |}.

Definition constant_churn (p : float) : ChurnModel :=
  {| predict_proba := fun _ => inr p |}.

Definition constant_clv (v : float) : ClvModel :=
  {| predict := fun _ => inr v |}.

(** A value model that raises on the data frame of one account length. *)
Definition clv_failing_at (n : Z) (msg : string) (v : float) : ClvModel :=
  {| predict := fun input_data =>
       match input_data with
       | (_, [CInt k]) :: _ =>
           if Z.eqb k n then inl {| exc_str := msg |} else inr v
       | _ => inr v
       end |}.

(** * The remaining endpoints and the start-up code *)

(** ** Loading the models *)

(** What the module has after its start-up [try] block: the two model
    handles, the lines printed, and the paths [joblib.load] was called
    with, in order. *)
Record Startup := {
  loaded_churn : option ChurnModel;
  loaded_clv : option ClvModel;
  printed : list string;
  load_calls : list string
}.

(** The start-up [try] block.  [joblib.load] is taken as a parameter for
    each of the two files: it raises, or returns the unpickled object, which
    may be [None]. *)
Definition load_models
    (load_churn : string -> PyException + option ChurnModel)
    (load_clv : string -> PyException + option ClvModel) : Startup :=
  match load_churn "best_churn_model_trf.pkl" with
  | inl e =>
      {| loaded_churn := None; loaded_clv := None;
         printed := ["✗ Error loading models: " ++ exc_str e];
         load_calls := ["best_churn_model_trf.pkl"] |}
  | inr churn_model =>
      match load_clv "best_clv_model_lnr.pkl" with
      | inl e =>
          {| loaded_churn := None; loaded_clv := None;
             printed := ["✗ Error loading models: " ++ exc_str e];
             load_calls := ["best_churn_model_trf.pkl"; "best_clv_model_lnr.pkl"] |}
      | inr clv_model =>
          {| loaded_churn := churn_model; loaded_clv := clv_model;
             printed := ["✓ Models loaded successfully!"];
             load_calls := ["best_churn_model_trf.pkl"; "best_clv_model_lnr.pkl"] |}
      end
  end.

(** ** The status endpoints *)

(** A value of the dictionaries the status endpoints return, and such a
    dictionary as its items in insertion order. *)
Inductive json :=
| JStr (s : string)
| JBool (b : bool)
| JInt (n : Z)
| JFloat (x : float).

Definition jdict : Type := list (string * json).

(** [d.get(key)] *)
Fixpoint jdict_get (key : string) (d : jdict) : option json :=
  match d with
  | [] => None
  | (k, v) :: rest => if String.eqb k key then Some v else jdict_get key rest
  end.

(** [x is not None] *)
Definition is_not_none {A : Type} (x : option A) : bool :=
  match x with
  | Some _ => true
  | None => false
  end.

(** The truth value of a handle: [None] is false, and a loaded object has
    the truth value [truthy] its class gives it. *)
Definition truth {A : Type} (truthy : A -> bool) (x : option A) : bool :=
  match x with
  | Some obj => truthy obj
  | None => false
  end.

Section StatusEndpoints.

Variable churn_model : option ChurnModel.
Variable clv_model : option ClvModel.

(** The truth value Python gives a loaded model object (from its
    [__bool__] or [__len__]; an object with neither is true). *)
Variable churn_truthy : ChurnModel -> bool.
Variable clv_truthy : ClvModel -> bool.

(** [GET /online] *)
Definition root : jdict :=
  [ ("status", JStr "online");
    ("service", JStr "TeleLink Customer Analytics API");
    ("version", JStr "2.0.0");
    ("models_loaded",
     JBool (is_not_none churn_model && is_not_none clv_model)) ].

(** [GET /health]; [churn_model and clv_model] is true when both operands
    are. *)
Definition health_check : jdict :=
  [ ("status",
     JStr (if truth churn_truthy churn_model && truth clv_truthy clv_model
           then "healthy" else "degraded"));
    ("churn_model",
     JStr (if truth churn_truthy churn_model then "loaded" else "not loaded"));
    ("clv_model",
     JStr (if truth clv_truthy clv_model then "loaded" else "not loaded"));
    ("api_version", JStr "2.0.0") ].

End StatusEndpoints.

(** [0.142] *)
Definition f0_142 : float := S754_finite false 5116089176692883 (-55).

(** [GET /stats] *)
Definition get_statistics : jdict :=
  [ ("total_customers", JInt 1200000);
    ("active_customers", JInt 1029600);
    ("churned_customers", JInt 170400);
    ("churn_rate", JFloat f0_142);
    ("avg_clv", JInt 32450);
    ("monthly_revenue", JInt 8900000);
    ("high_risk_customers", JInt 168000);
    ("medium_risk_customers", JInt 216000);
    ("low_risk_customers", JInt 816000) ].

(** * Vocabulary of the further properties *)

(** The column names of the frame, in the order of the training data. *)
Definition feature_columns : list string :=
  [ "Account length"; "International plan"; "Voice mail plan";
    "Number vmail messages"; "Total day calls"; "Total eve calls";
    "Total night calls"; "Total intl calls"; "Customer service calls";
    "State"; "Area code" ].

(** The rows of a column of a frame, its single integer and its single
    string. *)
Fixpoint frame_column (name : string) (d : DataFrame) : option (list cell) :=
  match d with
  | [] => None
  | (k, rows) :: rest =>
      if String.eqb k name then Some rows else frame_column name rest
  end.

Definition frame_int (name : string) (d : DataFrame) : option Z :=
  match frame_column name d with
  | Some [CInt n] => Some n
  | _ => None
  end.

Definition frame_str (name : string) (d : DataFrame) : option string :=
  match frame_column name d with
  | Some [CStr s] => Some s
  | _ => None
  end.

(** The customer a one-row frame was built from, read back column by
    column. *)
Definition customer_of_frame (d : DataFrame) : option CustomerData :=
  match frame_int "Account length" d, frame_str "State" d,
        frame_str "Area code" d, frame_str "International plan" d,
        frame_str "Voice mail plan" d, frame_int "Number vmail messages" d,
        frame_int "Total day calls" d, frame_int "Total eve calls" d,
        frame_int "Total night calls" d, frame_int "Total intl calls" d,
        frame_int "Customer service calls" d with
  | Some al, Some st, Some ac, Some ip, Some vp, Some nv,
    Some dc, Some ec, Some nc, Some ic, Some sc =>
      Some {| accountLength := al; state := st; areaCode := ac;
              internationalPlan := ip; voiceMailPlan := vp;
              numberOfVmailMessages := nv; totalDayCalls := dc;
              totalEveCalls := ec; totalNightCalls := nc;
              totalIntlCalls := ic; customerServiceCalls := sc |}
  | _, _, _, _, _, _, _, _, _, _, _ => None
  end.

(** The order of the probability bands and of the confidence tiers. *)
Definition band_rank (b : prob_band) : nat :=
  match b with
  | BandLow => 0
  | BandMedium => 1
  | BandHigh => 2
  end.

Definition confidence_rank (p : float) : nat :=
  if lt p f0_1 || gt p f0_9 then 3
  else if lt p f0_2 || gt p f0_8 then 2
  else if lt p f0_3 || gt p f0_7 then 1
  else 0.

Definition confidence_of_rank (n : nat) : string :=
  match n with
  | 0%nat => "Low"
  | 1%nat => "Moderate"
  | 2%nat => "High"
  | _ => "Very High"
  end.

(** The pairs of a risk tier and a confidence tier. *)
Definition tier_pairs : list (string * string) :=
  [ ("Low", "Very High"); ("Low", "High"); ("Low", "Moderate");
    ("Medium", "Moderate"); ("Medium", "Low");
    ("High", "Low"); ("High", "Moderate"); ("High", "High");
    ("High", "Very High") ].

(** Whether an event is a call of a model. *)
Definition is_model_call (ev : event) : bool :=
  match ev with
  | EvPredictProba _ | EvPredict _ => true
  | _ => false
  end.

(** The components a single request for a customer invokes, with both
    models loaded. *)
Definition request_events (cm : ChurnModel) (vm : ClvModel)
    (customer : CustomerData) : list event :=
  fst (predict_customer (Some cm) (Some vm) customer []).

(** What holds of every response the handlers build: the three derived
    fields are the ladders at the two scores. *)
Definition response_consistent (r : PredictionResponse) : Prop :=
  churn_risk r = risk_level_predict (churn_probability r) /\
  recommendation r = get_recommendation (churn_probability r) (estimated_clv r) /\
  confidence r = get_confidence_level (churn_probability r).

(** [a / b] on floats, and on two integers (true division, correctly
    rounded). *)
Definition float_div (a b : float) : float := SFdiv prec emax a b.

Definition int_truediv (a b : Z) : float := float_div (of_int a) (of_int b).

(** [0.25] *)
Definition f0_25 : float := S754_finite false 4503599627370496 (-54).

(** A handler outcome that is the 503 exception. *)
Definition raises_503 {A : Type} (out : list event * (HTTPException + A)) : Prop :=
  exists d, snd out = inl {| status_code := 503; detail := d |}.

(** Loaders for the two model files: one that raises and one that returns
    a model. *)
Definition load_raising {A : Type} (msg : string) : string -> PyException + option A :=
  fun _ => inl {| exc_str := msg |}.

Definition load_returning {A : Type} (obj : A) : string -> PyException + option A :=
  fun _ => inr (Some obj).

(** * Properties *)

(** ** Float comparison *)

(** Swapping the operands of a comparison reverses its outcome. *)
Lemma SFcompare_swap (x y : float) :
  SFcompare y x = option_map CompOpp (SFcompare x y).
Proof.
  destruct x as [sx | sx | | sx mx ex], y as [sy | sy | | sy my ey];
    try destruct sx; try destruct sy; try reflexivity.
  all: cbn; rewrite (Z.compare_antisym ex ey);
    destruct (ex ?= ey)%Z; cbn; try reflexivity;
    rewrite (Pos.compare_cont_antisym mx my Eq); cbn;
    try rewrite CompOpp_involutive; reflexivity.
Qed.

(** Two floats that are not NaN compare. *)
Lemma SFcompare_defined (x y : float) :
  is_nan x = false -> is_nan y = false -> exists c, SFcompare x y = Some c.
Proof.
  destruct x, y; cbn; intros; try discriminate; eauto.
Qed.

Lemma le_not_nan_l (x y : float) : le x y = true -> is_nan x = false.
Proof. destruct x, y; cbn; congruence. Qed.

Lemma le_not_nan_r (x y : float) : le x y = true -> is_nan y = false.
Proof. destruct x, y; cbn; congruence. Qed.

(** [x <= y] excludes [x > y]. *)
Lemma le_gt_false (x y : float) : le x y = true -> gt x y = false.
Proof.
  unfold le, gt, SFleb, SFltb. rewrite (SFcompare_swap x y).
  destruct (SFcompare x y) as [[]|]; cbn; congruence.
Qed.

(** [x < y] excludes [x > y]. *)
Lemma lt_gt_false (x y : float) : lt x y = true -> gt x y = false.
Proof.
  unfold lt, gt, SFltb. rewrite (SFcompare_swap x y).
  destruct (SFcompare x y) as [[]|]; cbn; congruence.
Qed.

(** Away from NaN the order is total: not [x > y] is [x <= y]. *)
Lemma not_gt_le (x y : float) :
  is_nan x = false -> is_nan y = false -> gt x y = false -> le x y = true.
Proof.
  intros Hx Hy. destruct (SFcompare_defined x y Hx Hy) as [c Hc].
  unfold le, gt, SFleb, SFltb. rewrite (SFcompare_swap x y), Hc.
  destruct c; cbn; congruence.
Qed.

Lemma in_unit_not_nan (p : float) : in_unit p = true -> is_nan p = false.
Proof.
  unfold in_unit. intros H. apply andb_true_iff in H as [_ H].
  exact (le_not_nan_l _ _ H).
Qed.

(** A float below zero is negative: minus infinity or a negative finite
    number. *)
Lemma lt_zero_inv (p : float) :
  lt p f0 = true ->
  p = S754_infinity true \/ exists m e, p = S754_finite true m e.
Proof.
  destruct p as [s | [] | | [] m e]; cbn; try discriminate; eauto.
Qed.

(** Above a positive finite float is above every positive finite float
    of smaller exponent. *)
Lemma gt_finite_lower (p : float) (m1 m2 : positive) (e1 e2 : Z) :
  (e2 < e1)%Z ->
  gt p (S754_finite false m1 e1) = true ->
  gt p (S754_finite false m2 e2) = true.
Proof.
  intros He. unfold gt, SFltb.
  destruct p as [s | [] | | [] m e]; cbn; try discriminate; try reflexivity.
  destruct (e1 ?= e)%Z eqn:H1; try discriminate; intros _.
  - apply Z.compare_eq in H1. subst e.
    rewrite (proj2 (Z.compare_lt_iff e2 e1) He). reflexivity.
  - change (e1 < e)%Z in H1.
    assert (H2 : (e2 < e)%Z) by lia.
    rewrite (proj2 (Z.compare_lt_iff e2 e) H2). reflexivity.
Qed.

Lemma gt_0_4_gt_0_2 (p : float) : gt p f0_4 = true -> gt p f0_2 = true.
Proof. apply gt_finite_lower. reflexivity. Qed.

Lemma gt_1_gt_0_9 (p : float) : gt p f1 = true -> gt p f0_9 = true.
Proof. apply gt_finite_lower. reflexivity. Qed.

(** The constants are the floats nearest to the decimal literals of the
    source. *)
Lemma literals_round_to_nearest :
  f0_1 = decimal 1 10 /\ f0_2 = decimal 2 10 /\ f0_3 = decimal 3 10 /\
  f0_4 = decimal 4 10 /\ f0_7 = decimal 7 10 /\ f0_8 = decimal 8 10 /\
  f0_9 = decimal 9 10 /\ f1 = of_int 1 /\
  f30000 = of_int 30000 /\ f40000 = of_int 40000.
Proof. vm_compute. repeat split. Qed.

(** ** The decision engine *)

(** The six recommendation strings are pairwise distinct. *)
Lemma recommendation_catalog_NoDup : NoDup recommendation_catalog.
Proof.
  unfold recommendation_catalog.
  repeat (constructor; [cbn; intros H; repeat destruct H as [H | H]; try discriminate H; try contradiction |]).
  constructor.
Qed.

Lemma risk_level_batch_eq (p : float) : risk_level_batch p = risk_level_predict p.
Proof. reflexivity. Qed.

(** C1: for every churn probability [p] in [0,1] the risk tier, the same in
    both handlers, is one of High, Medium, Low, and it is High exactly when
    [p > 0.4], Medium exactly when [0.2 < p <= 0.4], Low exactly when
    [p <= 0.2]; at [p = 0.4] it is Medium and at [p = 0.2] it is Low. *)
Theorem risk_tier_boundaries (p : float) (Hp : in_unit p = true) :
  risk_level_batch p = risk_level_predict p /\
  (risk_level_predict p = "High" \/ risk_level_predict p = "Medium" \/
   risk_level_predict p = "Low") /\
  (risk_level_predict p = "High" <-> gt p f0_4 = true) /\
  (risk_level_predict p = "Medium" <-> gt p f0_2 = true /\ le p f0_4 = true) /\
  (risk_level_predict p = "Low" <-> le p f0_2 = true) /\
  risk_level_predict f0_4 = "Medium" /\
  risk_level_predict f0_2 = "Low".
Proof.
  pose proof (in_unit_not_nan p Hp) as Hnan.
  split; [reflexivity |].
  unfold risk_level_predict.
  destruct (gt p f0_4) eqn:H4.
  - assert (H2 : gt p f0_2 = true).
    { exact (gt_0_4_gt_0_2 p H4). }
    assert (L4 : le p f0_4 = false).
    { destruct (le p f0_4) eqn:L; [apply le_gt_false in L; congruence | reflexivity]. }
    assert (L2 : le p f0_2 = false).
    { destruct (le p f0_2) eqn:L; [apply le_gt_false in L; congruence | reflexivity]. }
    repeat split; auto; try discriminate; try (intros [? ?]; congruence); try congruence.
  - pose proof (not_gt_le p f0_4 Hnan eq_refl H4) as L4.
    destruct (gt p f0_2) eqn:H2.
    + assert (L2 : le p f0_2 = false).
      { destruct (le p f0_2) eqn:L; [apply le_gt_false in L; congruence | reflexivity]. }
      repeat split; auto; try discriminate; try congruence.
    + pose proof (not_gt_le p f0_2 Hnan eq_refl H2) as L2.
      repeat split; auto; try discriminate; try (intros [? ?]; congruence).
Qed.

Lemma risk_tier_boundaries_witness :
  in_unit f0_3 = true /\ risk_level_predict f0_3 = "Medium".
Proof.
  split; [reflexivity |].
  destruct (risk_tier_boundaries f0_3 eq_refl) as (_ & _ & _ & HM & _).
  apply HM. split; reflexivity.
Defined.

(** C2: the confidence tier is the first matching check of the ladder
    [p < 0.1 or p > 0.9], [p < 0.2 or p > 0.8], [p < 0.3 or p > 0.7],
    otherwise; at [p = 0.2] the second check is false, the third is true
    and the tier is Moderate. *)
Theorem confidence_ordered_checks (p : float) :
  (lt p f0_1 || gt p f0_9 = true -> get_confidence_level p = "Very High") /\
  (lt p f0_1 || gt p f0_9 = false ->
   lt p f0_2 || gt p f0_8 = true -> get_confidence_level p = "High") /\
  (lt p f0_1 || gt p f0_9 = false ->
   lt p f0_2 || gt p f0_8 = false ->
   lt p f0_3 || gt p f0_7 = true -> get_confidence_level p = "Moderate") /\
  (lt p f0_1 || gt p f0_9 = false ->
   lt p f0_2 || gt p f0_8 = false ->
   lt p f0_3 || gt p f0_7 = false -> get_confidence_level p = "Low") /\
  lt f0_2 f0_1 || gt f0_2 f0_9 = false /\
  lt f0_2 f0_2 || gt f0_2 f0_8 = false /\
  lt f0_2 f0_3 = true /\
  get_confidence_level f0_2 = "Moderate".
Proof.
  unfold get_confidence_level.
  repeat split; try reflexivity.
  - intros ->. reflexivity.
  - intros -> ->. reflexivity.
  - intros -> -> ->. reflexivity.
  - intros -> -> ->. reflexivity.
Qed.

Lemma f35000_literal : f35000 = of_int 35000.
Proof. vm_compute. reflexivity. Qed.

(** C3, as stated, fails: at [p = 0.3], [clv = 35000] the confidence tier
    is not Moderate. *)
Lemma scenario_0_3_not_moderate :
  ~ (risk_level_predict f0_3 = "Medium" /\
     get_confidence_level f0_3 = "Moderate" /\
     get_recommendation f0_3 f35000 = rec_proactive).
Proof.
  intros (_ & H & _). vm_compute in H. discriminate H.
Qed.

(** C3, amended: at [p = 0.3], [clv = 35000] the decision engine yields
    risk tier Medium, confidence tier Low (the check [p < 0.3] is strict),
    and the PROACTIVE recommendation. *)
Theorem scenario_0_3_decision :
  risk_level_predict f0_3 = "Medium" /\
  risk_level_batch f0_3 = "Medium" /\
  lt f0_3 f0_3 = false /\
  get_confidence_level f0_3 = "Low" /\
  get_recommendation f0_3 f35000 = rec_proactive.
Proof. vm_compute. repeat split. Qed.

(** [get_recommendation] reads the table at the two bands. *)
Lemma get_recommendation_table (p clv : float) :
  get_recommendation p clv =
  recommendation_table (prob_band_of p) (value_band_of (prob_band_of p) clv).
Proof.
  unfold get_recommendation, prob_band_of.
  destruct (gt p f0_4); [| destruct (gt p f0_2)]; cbn [value_band_of];
    destruct (gt clv _); reflexivity.
Qed.

Lemma recommendation_table_in (b : prob_band) (v : bool) :
  In (recommendation_table b v) recommendation_catalog.
Proof.
  unfold recommendation_catalog.
  destruct b, v; cbn [recommendation_table In]; auto 7.
Qed.

(** Away from NaN the probability bands are [p > 0.4], [0.2 < p <= 0.4]
    and [p <= 0.2]. *)
Lemma prob_band_of_spec (p : float) :
  is_nan p = false ->
  (prob_band_of p = BandHigh <-> gt p f0_4 = true) /\
  (prob_band_of p = BandMedium <-> gt p f0_2 = true /\ le p f0_4 = true) /\
  (prob_band_of p = BandLow <-> le p f0_2 = true).
Proof.
  intros Hnan. unfold prob_band_of.
  destruct (gt p f0_4) eqn:H4.
  - pose proof (gt_0_4_gt_0_2 p H4) as H2.
    assert (L4 : le p f0_4 = false).
    { destruct (le p f0_4) eqn:L; [apply le_gt_false in L; congruence | reflexivity]. }
    assert (L2 : le p f0_2 = false).
    { destruct (le p f0_2) eqn:L; [apply le_gt_false in L; congruence | reflexivity]. }
    repeat split; auto; try discriminate; try (intros [? ?]; congruence); try congruence.
  - pose proof (not_gt_le p f0_4 Hnan eq_refl H4) as L4.
    destruct (gt p f0_2) eqn:H2.
    + assert (L2 : le p f0_2 = false).
      { destruct (le p f0_2) eqn:L; [apply le_gt_false in L; congruence | reflexivity]. }
      repeat split; auto; try discriminate; try congruence.
    + pose proof (not_gt_le p f0_2 Hnan eq_refl H2) as L2.
      repeat split; auto; try discriminate; try (intros [? ?]; congruence).
Qed.

(** C5: the recommendation is the entry of a fixed two-way table at the
    probability band of [p] and the value band of [clv]; the table has
    exactly six entries, pairwise distinct, none empty, every one of them
    returned for some input in the declared domain, and for every [p] and
    [clv] the result is one of the six. *)
Theorem recommendation_six_outputs :
  (forall p clv,
     get_recommendation p clv =
     recommendation_table (prob_band_of p) (value_band_of (prob_band_of p) clv)) /\
  (forall p, is_nan p = false ->
     (prob_band_of p = BandHigh <-> gt p f0_4 = true) /\
     (prob_band_of p = BandMedium <-> gt p f0_2 = true /\ le p f0_4 = true) /\
     (prob_band_of p = BandLow <-> le p f0_2 = true)) /\
  (forall p clv, In (get_recommendation p clv) recommendation_catalog) /\
  List.length recommendation_catalog = 6%nat /\
  NoDup recommendation_catalog /\
  Forall (fun s => s <> "") recommendation_catalog /\
  (forall s, In s recommendation_catalog ->
     exists p clv, in_unit p = true /\ get_recommendation p clv = s).
Proof.
  split; [exact get_recommendation_table |].
  split; [exact prob_band_of_spec |].
  split; [intros p clv; rewrite get_recommendation_table; apply recommendation_table_in |].
  split; [reflexivity |].
  split; [exact recommendation_catalog_NoDup |].
  split.
  - unfold recommendation_catalog.
    repeat (constructor; [discriminate |]). constructor.
  - intros s Hs. unfold recommendation_catalog in Hs. cbn [In] in Hs.
    destruct Hs as [<- | [<- | [<- | [<- | [<- | [<- | []]]]]]].
    + exists f0_5, f50000. split; reflexivity.
    + exists f0_5, f10000. split; reflexivity.
    + exists f0_3, f50000. split; reflexivity.
    + exists f0_3, f10000. split; reflexivity.
    + exists f0_1, f50000. split; reflexivity.
    + exists f0_1, f10000. split; reflexivity.
Qed.

Lemma risk_level_band (p : float) :
  risk_level_predict p = band_name (prob_band_of p).
Proof.
  unfold risk_level_predict, prob_band_of.
  destruct (gt p f0_4); [| destruct (gt p f0_2)]; reflexivity.
Qed.

Lemma band_recommendations_disjoint (b b' : prob_band) (s : string) :
  In s (band_recommendations b) -> In s (band_recommendations b') -> b = b'.
Proof.
  destruct b, b'; cbn; intros [<- | [<- | []]] [H | [H | []]];
    try reflexivity; discriminate H.
Qed.

(** C6: for every [p] and [clv] the recommendation is one of the
    CRITICAL and HIGH PRIORITY strings exactly when the risk tier (of
    either handler) is High, one of PROACTIVE and MONITOR exactly when it is
    Medium, and one of NURTURE and MAINTAIN exactly when it is Low. *)
Theorem recommendation_band_matches_risk (p clv : float) :
  risk_level_batch p = risk_level_predict p /\
  (In (get_recommendation p clv) [rec_critical; rec_high_priority] <->
   risk_level_predict p = "High") /\
  (In (get_recommendation p clv) [rec_proactive; rec_monitor] <->
   risk_level_predict p = "Medium") /\
  (In (get_recommendation p clv) [rec_nurture; rec_maintain] <->
   risk_level_predict p = "Low").
Proof.
  split; [reflexivity |].
  rewrite risk_level_band, get_recommendation_table.
  assert (Hin : In (recommendation_table (prob_band_of p)
                      (value_band_of (prob_band_of p) clv))
                   (band_recommendations (prob_band_of p))).
  { unfold band_recommendations.
    destruct (value_band_of _ _); cbn [In]; auto. }
  assert (Hiff : forall b, In (recommendation_table (prob_band_of p)
                                 (value_band_of (prob_band_of p) clv))
                              (band_recommendations b) <->
                           band_name (prob_band_of p) = band_name b).
  { intros b. split.
    - intros Hb. rewrite (band_recommendations_disjoint _ _ _ Hin Hb). reflexivity.
    - intros Hb. replace b with (prob_band_of p); [exact Hin |].
      destruct (prob_band_of p), b; try reflexivity; discriminate Hb. }
  repeat split; try apply (Hiff BandHigh); try apply (Hiff BandMedium);
    try apply (Hiff BandLow).
Qed.

(** C10: [get_recommendation] and [get_confidence_level] return one of
    their fixed strings on every float, whether or not [p] is in [0,1] and
    whatever the sign of [clv], NaN and the infinities included; a negative
    [p] has confidence "Very High" and a recommendation of the
    [p <= 0.2] band, a NaN has confidence "Low" and the same band. *)
Theorem ladders_total (p clv : float) :
  In (get_recommendation p clv) recommendation_catalog /\
  In (get_confidence_level p) confidence_catalog /\
  (lt p f0 = true ->
   get_confidence_level p = "Very High" /\
   In (get_recommendation p clv) [rec_nurture; rec_maintain]) /\
  (gt p f1 = true -> get_confidence_level p = "Very High") /\
  get_confidence_level S754_nan = "Low" /\
  In (get_recommendation S754_nan clv) [rec_nurture; rec_maintain].
Proof.
  split; [rewrite get_recommendation_table; apply recommendation_table_in |].
  split.
  { unfold get_confidence_level, confidence_catalog.
    destruct (_ || _); [cbn; auto |].
    destruct (_ || _); [cbn; auto |].
    destruct (_ || _); cbn; auto. }
  split.
  { intros Hneg.
    destruct (lt_zero_inv p Hneg) as [-> | (m & e & ->)].
    - split; [reflexivity |].
      unfold get_recommendation; cbn [In].
      change (gt (S754_infinity true) f0_4) with false.
      change (gt (S754_infinity true) f0_2) with false.
      cbv iota. destruct (gt clv f40000); auto.
    - split; [reflexivity |].
      unfold get_recommendation; cbn [In].
      change (gt (S754_finite true m e) f0_4) with false.
      change (gt (S754_finite true m e) f0_2) with false.
      cbv iota. destruct (gt clv f40000); auto. }
  split.
  { intros Hbig. unfold get_confidence_level.
    rewrite (gt_1_gt_0_9 p Hbig).
    rewrite orb_true_r. reflexivity. }
  split; [reflexivity |].
  unfold get_recommendation; cbn [In].
  change (gt S754_nan f0_4) with false.
  change (gt S754_nan f0_2) with false.
  cbv iota. destruct (gt clv f40000); auto.
Qed.

(** ** The request handlers *)

Section HandlerFacts.

Variable cm : ChurnModel.
Variable vm : ClvModel.

Lemma scores_ok_or_fail (customer : CustomerData) :
  scores_ok cm vm customer \/ scores_fail cm vm customer.
Proof.
  unfold scores_ok, scores_fail.
  destruct (score cm vm customer) as [e | [p v]]; eauto.
Qed.

Ltac run_unfold :=
  unfold predict_customer, predict_customer_body, batch_predict,
    batch_predict_body, Run.try_except, Run.bind, Run.call, Run.ret,
    Run.raise.

(** The single-record handler on a customer that scores, and on one that
    does not. *)
Lemma predict_customer_ok (customer : CustomerData) (p v : float) (log : list event) :
  score cm vm customer = inr (p, v) ->
  predict_customer (Some cm) (Some vm) customer log =
  ((log ++ success_events customer p v)%list, inr (decide p v)).
Proof.
  unfold score. run_unfold.
  destruct (predict_proba cm _) as [e | p']; [discriminate |].
  destruct (predict vm _) as [e | v']; [discriminate |].
  intros [= -> ->]. unfold success_events, decide.
  repeat rewrite <- app_assoc. reflexivity.
Qed.

Lemma predict_customer_fail (customer : CustomerData) (e : PyException)
    (log : list event) :
  score cm vm customer = inl e ->
  predict_customer (Some cm) (Some vm) customer log =
  ((log ++ failure_events cm customer)%list,
   inl {| status_code := 500; detail := "Prediction error: " ++ exc_str e |}).
Proof.
  unfold score, failure_events. run_unfold.
  destruct (predict_proba cm _) as [e' | p'].
  - intros [= ->]. repeat rewrite <- app_assoc. reflexivity.
  - destruct (predict vm _) as [e' | v']; [| discriminate].
    intros [= ->]. repeat rewrite <- app_assoc. reflexivity.
Qed.

(** One iteration of the batch loop: on a customer that fails to score it
    raises, on one that scores it appends the item and goes on. *)
Lemma batch_loop_fail (customer : CustomerData) (rest : list CustomerData)
    (e : PyException) (results : list dict) (log : list event) :
  score cm vm customer = inl e ->
  batch_predict_loop cm vm (customer :: rest) results log =
  ((log ++ failure_events cm customer)%list, inl e).
Proof.
  unfold score, failure_events. cbn [batch_predict_loop]. run_unfold.
  destruct (predict_proba cm _) as [e' | p'].
  - intros [= ->]. repeat rewrite <- app_assoc. reflexivity.
  - destruct (predict vm _) as [e' | v']; [| discriminate].
    intros [= ->]. repeat rewrite <- app_assoc. reflexivity.
Qed.

Lemma batch_loop_step (customer : CustomerData) (rest : list CustomerData)
    (p v : float) (results : list dict) (log : list event) :
  score cm vm customer = inr (p, v) ->
  batch_predict_loop cm vm (customer :: rest) results log =
  batch_predict_loop cm vm rest (results ++ [model_dump (decide p v)])%list
    (log ++ success_events customer p v)%list.
Proof.
  unfold score. cbn [batch_predict_loop]. run_unfold.
  destruct (predict_proba cm _) as [e | p']; [discriminate |].
  destruct (predict vm _) as [e | v']; [discriminate |].
  intros [= -> ->]. unfold success_events.
  repeat rewrite <- app_assoc. reflexivity.
Qed.

(** The loop over a prefix of customers that all score. *)
Lemma batch_loop_prefix (scored rest : list CustomerData) :
  Forall (scores_ok cm vm) scored ->
  forall (results : list dict) (log : list event),
    batch_predict_loop cm vm (scored ++ rest) results log =
    batch_predict_loop cm vm rest
      (results ++ map (batch_item cm vm) scored)%list
      (log ++ flat_map (events_of cm vm) scored)%list.
Proof.
  induction 1 as [| customer scored (p & v & Hpv) _ IH]; intros results log.
  - cbn [app map flat_map]. repeat rewrite app_nil_r. reflexivity.
  - cbn [app map flat_map].
    rewrite (batch_loop_step _ _ p v _ _ Hpv), IH.
    unfold batch_item at 2, events_of at 2. rewrite Hpv.
    repeat rewrite <- app_assoc. reflexivity.
Qed.

(** A batch with a failing item splits at its first failing item. *)
Lemma first_failure (customers : list CustomerData) :
  Exists (scores_fail cm vm) customers ->
  exists scored customer rest,
    customers = (scored ++ customer :: rest)%list /\
    Forall (scores_ok cm vm) scored /\ scores_fail cm vm customer.
Proof.
  induction customers as [| c customers IH]; intros Hex.
  - inversion Hex.
  - destruct (scores_ok_or_fail c) as [Hok | Hfail].
    + assert (Hex' : Exists (scores_fail cm vm) customers).
      { inversion Hex as [? ? Hc | ? ? Hc]; subst; [| exact Hc].
        destruct Hok as (p & v & Hpv), Hc as (e & He). congruence. }
      destruct (IH Hex') as (scored & customer & rest & -> & Hs & Hf).
      exists (c :: scored), customer, rest. repeat split; auto.
    + exists [], c, customers. repeat split; auto.
Qed.

(** The batch handler when every customer scores, and when the first
    failing customer follows a prefix that scores. *)
Lemma batch_predict_ok (customers : list CustomerData) (log : list event) :
  Forall (scores_ok cm vm) customers ->
  batch_predict (Some cm) (Some vm) customers log =
  ((log ++ flat_map (events_of cm vm) customers)%list,
   inr {| predictions := map (batch_item cm vm) customers;
          count := Z.of_nat (List.length customers) |}).
Proof.
  intros Hok. run_unfold.
  rewrite <- (app_nil_r customers) at 1.
  rewrite (batch_loop_prefix _ _ Hok). cbn [batch_predict_loop app].
  unfold Run.ret. rewrite length_map. reflexivity.
Qed.

Lemma batch_predict_fail (scored rest : list CustomerData)
    (customer : CustomerData) (e : PyException) (log : list event) :
  Forall (scores_ok cm vm) scored ->
  score cm vm customer = inl e ->
  batch_predict (Some cm) (Some vm) (scored ++ customer :: rest) log =
  ((log ++ flat_map (events_of cm vm) scored ++ failure_events cm customer)%list,
   inl {| status_code := 500;
          detail := "Batch prediction error: " ++ exc_str e |}).
Proof.
  intros Hok He. run_unfold.
  rewrite (batch_loop_prefix _ _ Hok), (batch_loop_fail _ _ e _ _ He).
  repeat rewrite <- app_assoc. reflexivity.
Qed.

End HandlerFacts.

(** C7: when either model handle is [None], [predict_customer] and
    [batch_predict] raise the 503 exception and invoke nothing: the log of
    invoked components is unchanged, so neither the normaliser, nor a
    model, nor a ladder of the decision engine has run. *)
Theorem models_unavailable_short_circuits
    (churn_model : option ChurnModel) (clv_model : option ClvModel)
    (Hmissing : churn_model = None \/ clv_model = None) (log : list event) :
  (forall customer,
     predict_customer churn_model clv_model customer log =
     (log, inl {| status_code := 503;
                  detail := "ML models not loaded. Please ensure model files are available." |})) /\
  (forall customers,
     batch_predict churn_model clv_model customers log =
     (log, inl {| status_code := 503; detail := "ML models not loaded." |})).
Proof.
  unfold predict_customer, batch_predict, Run.raise.
  destruct Hmissing as [-> | ->].
  - split; intros; reflexivity.
  - destruct churn_model; split; intros; reflexivity.
Qed.

Lemma models_unavailable_short_circuits_witness :
  predict_customer (Some (constant_churn f0_5)) None example_customer [] =
  ([], inl {| status_code := 503;
              detail := "ML models not loaded. Please ensure model files are available." |}) /\
  batch_predict None (Some (constant_clv f50000)) [example_customer] [] =
  ([], inl {| status_code := 503; detail := "ML models not loaded." |}).
Proof.
  split.
  - exact (proj1 (models_unavailable_short_circuits
                    (Some (constant_churn f0_5)) None (or_intror eq_refl) [])
                 example_customer).
  - exact (proj2 (models_unavailable_short_circuits
                    None (Some (constant_clv f50000)) (or_introl eq_refl) [])
                 [example_customer]).
Defined.

(** C8: with both models loaded, if every customer of the batch scores,
    [batch_predict] returns one dictionary per customer, in the order of
    the input, each the fields of the response [predict_customer] returns
    for that customer, with [count] the number of customers; if some
    customer fails to score, the whole batch raises the 500 exception, and
    no prediction is returned. *)
Theorem batch_all_or_nothing (cm : ChurnModel) (vm : ClvModel)
    (customers : list CustomerData) (log : list event) :
  (Forall (scores_ok cm vm) customers ->
   exists log' resp,
     batch_predict (Some cm) (Some vm) customers log = (log', inr resp) /\
     count resp = Z.of_nat (List.length customers) /\
     List.length (predictions resp) = List.length customers /\
     Forall2 (fun customer item =>
                exists log1 r,
                  predict_customer (Some cm) (Some vm) customer log = (log1, inr r) /\
                  item = model_dump r)
             customers (predictions resp)) /\
  (Exists (scores_fail cm vm) customers ->
   exists log' e,
     batch_predict (Some cm) (Some vm) customers log =
     (log', inl {| status_code := 500;
                   detail := "Batch prediction error: " ++ exc_str e |})).
Proof.
  split.
  - intros Hok. rewrite (batch_predict_ok cm vm customers log Hok).
    eexists _, _. split; [reflexivity |]. cbn [count predictions].
    split; [reflexivity |]. split; [apply length_map |].
    induction Hok as [| customer rest (p & v & Hpv) _ IH]; cbn [map].
    + constructor.
    + constructor; [| exact IH].
      exists (log ++ success_events customer p v)%list, (decide p v).
      split; [apply predict_customer_ok; exact Hpv |].
      unfold batch_item. rewrite Hpv. reflexivity.
  - intros Hex.
    destruct (first_failure cm vm customers Hex)
      as (scored & customer & rest & -> & Hok & (e & He)).
    rewrite (batch_predict_fail cm vm scored rest customer e log Hok He).
    eexists _, e. reflexivity.
Qed.

Lemma batch_all_or_nothing_witness :
  (exists log' resp,
     batch_predict (Some (constant_churn f0_5)) (Some (clv_failing_at 7 "boom" f50000))
       [example_customer; customer_of_length 3] [] = (log', inr resp) /\
     count resp = 2 /\
     List.length (predictions resp) = 2%nat /\
     Forall2 (fun customer item =>
                exists log1 r,
                  predict_customer (Some (constant_churn f0_5))
                    (Some (clv_failing_at 7 "boom" f50000)) customer [] = (log1, inr r) /\
                  item = model_dump r)
             [example_customer; customer_of_length 3] (predictions resp)) /\
  (exists log' e,
     batch_predict (Some (constant_churn f0_5)) (Some (clv_failing_at 7 "boom" f50000))
       [example_customer; customer_of_length 7; customer_of_length 3] [] =
     (log', inl {| status_code := 500;
                   detail := "Batch prediction error: " ++ exc_str e |})).
Proof.
  split.
  - apply (proj1 (batch_all_or_nothing (constant_churn f0_5)
                    (clv_failing_at 7 "boom" f50000)
                    [example_customer; customer_of_length 3] [])).
    repeat constructor; eexists _, _; reflexivity.
  - apply (proj2 (batch_all_or_nothing (constant_churn f0_5)
                    (clv_failing_at 7 "boom" f50000)
                    [example_customer; customer_of_length 7; customer_of_length 3] [])).
    apply Exists_cons_tl, Exists_cons_hd. eexists. reflexivity.
Defined.

(** C9: with both models loaded, an exception raised while a customer is
    scored is caught and raised again as the 500 exception whose detail
    ends with the message of that exception, by [predict_customer] and, for
    the first failing customer of a batch, by [batch_predict]; the
    components invoked up to the failure are invoked once each, in order,
    and nothing is invoked after it; the outcome is the same whatever was
    logged before the request. *)
Theorem scoring_failure_surfaces (cm : ChurnModel) (vm : ClvModel)
    (log : list event) :
  (forall customer e,
     score cm vm customer = inl e ->
     predict_customer (Some cm) (Some vm) customer log =
     ((log ++ failure_events cm customer)%list,
      inl {| status_code := 500; detail := "Prediction error: " ++ exc_str e |})) /\
  (forall scored customer rest e,
     Forall (scores_ok cm vm) scored ->
     score cm vm customer = inl e ->
     batch_predict (Some cm) (Some vm) (scored ++ customer :: rest) log =
     ((log ++ flat_map (events_of cm vm) scored ++ failure_events cm customer)%list,
      inl {| status_code := 500;
             detail := "Batch prediction error: " ++ exc_str e |})) /\
  (forall customer,
     failure_events cm customer =
       [EvPrepare customer; EvPredictProba (prepare_input_data customer)] \/
     failure_events cm customer =
       [EvPrepare customer; EvPredictProba (prepare_input_data customer);
        EvPredict (prepare_input_data customer)]).
Proof.
  split; [intros customer e; apply predict_customer_fail |].
  split; [intros scored customer rest e; apply batch_predict_fail |].
  intros customer. unfold failure_events.
  destruct (predict_proba cm _); auto.
Qed.

Lemma scoring_failure_surfaces_witness :
  predict_customer (Some (constant_churn f0_5)) (Some (clv_failing_at 7 "boom" f50000))
    (customer_of_length 7) [] =
  ([EvPrepare (customer_of_length 7);
    EvPredictProba (prepare_input_data (customer_of_length 7));
    EvPredict (prepare_input_data (customer_of_length 7))],
   inl {| status_code := 500; detail := "Prediction error: boom" |}).
Proof.
  exact (proj1 (scoring_failure_surfaces (constant_churn f0_5)
                  (clv_failing_at 7 "boom" f50000) [])
               (customer_of_length 7) {| exc_str := "boom" |} eq_refl).
Defined.

(** ** Subtraction from one and the symmetry of the confidence ladder *)

(** *** Bit lengths and shifts *)

(** A positive number of [d] bits lies in [[2^(d-1), 2^d)], and conversely. *)
Lemma digits2_pos_bounds (m : positive) :
  2 ^ (Zpos (digits2_pos m) - 1) <= Zpos m < 2 ^ Zpos (digits2_pos m).
Proof.
  induction m as [m IH | m IH |]; cbn [digits2_pos].
  - rewrite Pos2Z.inj_succ. change (Zpos m~1) with (2 * Zpos m + 1).
    replace (Z.succ (Zpos (digits2_pos m)) - 1) with (Z.succ (Zpos (digits2_pos m) - 1)) by lia.
    rewrite !Z.pow_succ_r by lia.
    generalize dependent (2 ^ (Z.pos (digits2_pos m) - 1)).
    generalize dependent (2 ^ Z.pos (digits2_pos m)). intros; lia.
  - rewrite Pos2Z.inj_succ. change (Zpos m~0) with (2 * Zpos m).
    replace (Z.succ (Zpos (digits2_pos m)) - 1) with (Z.succ (Zpos (digits2_pos m) - 1)) by lia.
    rewrite !Z.pow_succ_r by lia.
    generalize dependent (2 ^ (Z.pos (digits2_pos m) - 1)).
    generalize dependent (2 ^ Z.pos (digits2_pos m)). intros; lia.
  - cbn. lia.
Qed.

Lemma digits2_pos_unique (m : positive) (d : Z) :
  2 ^ (d - 1) <= Zpos m < 2 ^ d -> Zpos (digits2_pos m) = d.
Proof.
  intros [Hlo Hhi]. pose proof (digits2_pos_bounds m) as [Blo Bhi].
  set (d' := Zpos (digits2_pos m)) in *.
  assert (0 < d').
  { subst d'. lia. }
  assert (0 < d).
  { destruct (Z.lt_trichotomy d 0) as [Hd | [Hd | Hd]]; [| | assumption].
    - rewrite (Z.pow_neg_r 2 d Hd) in Hhi. lia.
    - subst d. change (2 ^ 0) with 1 in Hhi. lia. }
  destruct (Z.lt_trichotomy d' d) as [Hlt | [Heq | Hgt]]; [| assumption |].
  - assert (2 ^ d' <= 2 ^ (d - 1)) by (apply Z.pow_le_mono_r; lia). lia.
  - assert (2 ^ d <= 2 ^ (d' - 1)) by (apply Z.pow_le_mono_r; lia). lia.
Qed.

(** Appending [d] zero bits multiplies by [2^d]. *)
Lemma Pos_iter_xO (m d : positive) :
  Zpos (Pos.iter xO m d) = Zpos m * 2 ^ Zpos d.
Proof.
  induction d as [| d IH] using Pos.peano_ind.
  - cbn. lia.
  - rewrite Pos.iter_succ. change (Zpos (Pos.iter xO m d)~0) with (2 * Zpos (Pos.iter xO m d)).
    rewrite IH, Pos2Z.inj_succ, Z.pow_succ_r by lia. lia.
Qed.

(** One right shift halves the mantissa, remembers the bit shifted out and
    accumulates the earlier ones. *)
Lemma shr_1_spec (m : Z) (r s : bool) :
  0 <= m -> shr_1 (Build_shr_record m r s) = Build_shr_record (m / 2) (Z.odd m) (r || s).
Proof.
  intros Hm. rewrite <- Z.div2_div.
  destruct m as [| [p | p |] | p]; try lia; reflexivity.
Qed.

Lemma mod_pow2_split (n j : Z) :
  0 < j ->
  n mod 2 ^ j = n mod 2 ^ (j - 1) + 2 ^ (j - 1) * ((n / 2 ^ (j - 1)) mod 2).
Proof.
  intros Hj.
  replace (2 ^ j) with (2 ^ (j - 1) * 2).
  - apply Z.rem_mul_r; [apply Z.pow_nonzero; lia | lia].
  - rewrite Z.mul_comm, <- (Z.pow_succ_r 2 (j - 1)) by lia. f_equal. lia.
Qed.

Lemma odd_mod2 (a : Z) : Z.odd a = (a mod 2 =? 1).
Proof.
  rewrite Zmod_odd. destruct (Z.odd a); reflexivity.
Qed.

Lemma shr_state_step (n j : Z) :
  0 <= n -> 0 <= j -> shr_1 (shr_state n j) = shr_state n (j + 1).
Proof.
  intros Hn Hj. unfold shr_state.
  destruct (Z.eqb_spec j 0) as [-> | Hj0].
  - rewrite shr_1_spec by assumption. cbn [Z.add Z.eqb Z.sub Z.opp Z.pos_sub].
    change (2 ^ 1) with 2. change (2 ^ 0) with 1.
    rewrite Z.div_1_r, Z.mod_1_r. reflexivity.
  - destruct (Z.eqb_spec (j + 1) 0) as [? | _]; [lia |].
    assert (Hp : 0 < 2 ^ j) by (apply Z.pow_pos_nonneg; lia).
    rewrite shr_1_spec by (apply Z.div_pos; lia).
    replace (j + 1 - 1) with j by lia.
    f_equal.
    + rewrite Z.div_div by lia. f_equal.
      rewrite Z.mul_comm, <- (Z.pow_succ_r 2 j) by lia. reflexivity.
    + rewrite (mod_pow2_split n j) by lia. rewrite odd_mod2.
      assert (Hq : 0 < 2 ^ (j - 1)) by (apply Z.pow_pos_nonneg; lia).
      pose proof (Z.mod_pos_bound n (2 ^ (j - 1)) Hq) as Hr.
      pose proof (Z.mod_pos_bound (n / 2 ^ (j - 1)) 2 ltac:(lia)) as Hb.
      generalize dependent (n mod 2 ^ (j - 1)).
      generalize dependent ((n / 2 ^ (j - 1)) mod 2).
      generalize dependent (2 ^ (j - 1)).
      intros h Hh b Hb r Hr.
      destruct (Z.eqb_spec (r + h * b) 0) as [E | E];
        destruct (Z.eqb_spec b 1) as [Hb1 | Hb1];
        destruct (Z.eqb_spec r 0) as [Hr0 | Hr0]; try reflexivity; exfalso; nia.
Qed.

(** [p] right shifts take the record after [j] shifts to the record after
    [j + p]. *)
Lemma iter_pos_shr_state (p : positive) (n j : Z) :
  0 <= n -> 0 <= j ->
  iter_pos shr_1 p (shr_state n j) = shr_state n (j + Zpos p).
Proof.
  intros Hn. revert j.
  induction p as [p IH | p IH |]; intros j Hj; cbn [iter_pos].
  - rewrite shr_state_step, IH, IH by lia. f_equal. lia.
  - rewrite IH, IH by lia. f_equal. lia.
  - apply shr_state_step; assumption.
Qed.

(** Rounding the record after [k] shifts of [n] rounds [n / 2^k] to
    nearest, ties to even. *)
Lemma round_shr_state (n k : Z) :
  0 <= n -> 0 < k ->
  round_nearest_even (shr_m (shr_state n k)) (loc_of_shr_record (shr_state n k)) =
  rne n (2 ^ k).
Proof.
  intros Hn Hk. unfold shr_state, rne.
  destruct (Z.eqb_spec k 0) as [? | _]; [lia |].
  cbn [shr_m]. rewrite (mod_pow2_split n k) by lia. rewrite odd_mod2.
  assert (Hq : 0 < 2 ^ (k - 1)) by (apply Z.pow_pos_nonneg; lia).
  replace (2 ^ k) with (2 * 2 ^ (k - 1))
    by (rewrite <- (Z.pow_succ_r 2 (k - 1)) by lia; f_equal; lia).
  pose proof (Z.mod_pos_bound n (2 ^ (k - 1)) Hq) as Hr.
  pose proof (Z.mod_pos_bound (n / 2 ^ (k - 1)) 2 ltac:(lia)) as Hb.
  generalize (n / (2 * 2 ^ (k - 1))).
  generalize dependent (n mod 2 ^ (k - 1)).
  generalize dependent ((n / 2 ^ (k - 1)) mod 2).
  generalize dependent (2 ^ (k - 1)).
  intros h Hh b Hb r Hr q.
  destruct (Z.ltb_spec (2 * (r + h * b)) (2 * h)) as [L1 | L1];
    destruct (Z.ltb_spec (2 * h) (2 * (r + h * b))) as [L2 | L2];
    destruct (Z.eqb_spec b 1) as [Hb1 | Hb1];
    destruct (Z.eqb_spec r 0) as [Hr0 | Hr0];
    cbn [negb loc_of_shr_record round_nearest_even];
    try reflexivity; try (exfalso; nia).
Qed.

(** *** Rounding *)

Lemma fexp_normal (x : Z) : -1074 <= x - 53 -> fexp prec emax x = x - 53.
Proof. unfold fexp, emin, prec, emax. lia. Qed.

(** Aligning a mantissa to a smaller exponent shifts it left; aligning to
    a larger one leaves it alone. *)
Lemma shl_align_le (n : positive) (e e' : Z) :
  e' <= e -> shl_align n e e' = (Z.to_pos (Zpos n * 2 ^ (e - e')), e').
Proof.
  intros Hle. unfold shl_align.
  destruct (e' - e) as [| p | p] eqn:E.
  - assert (e' = e) as -> by lia. rewrite Z.sub_diag.
    change (2 ^ 0) with 1. rewrite Z.mul_1_r. reflexivity.
  - lia.
  - replace (e - e') with (Zpos p) by lia.
    rewrite <- Pos_iter_xO. reflexivity.
Qed.

Lemma shl_align_ge (n : positive) (e e' : Z) :
  e <= e' -> shl_align n e e' = (n, e).
Proof.
  intros Hle. unfold shl_align.
  destruct (e' - e) as [| p | p] eqn:E; try reflexivity. lia.
Qed.

(** A 53-bit mantissa with an exponent in range is already rounded. *)
Lemma binary_round_aux_canonical (m : positive) (e : Z) :
  Zpos (digits2_pos m) = 53 -> -1074 <= e <= 971 ->
  binary_round_aux prec emax false (Zpos m) e loc_Exact = S754_finite false m e.
Proof.
  intros Hd He. unfold binary_round_aux, shr_fexp. cbn [Zdigits2 shr_record_of_loc].
  rewrite Hd, fexp_normal by lia.
  replace (53 + e - 53 - e) with 0 by lia.
  cbn [shr shr_m loc_of_shr_record round_nearest_even Zdigits2 shr_record_of_loc].
  rewrite Hd, fexp_normal by lia.
  replace (53 + e - 53 - e) with 0 by lia.
  cbn [shr shr_m].
  replace (e <=? emax - prec) with true; [reflexivity |].
  symmetry. apply Z.leb_le. unfold emax, prec. lia.
Qed.

(** Rounding a number of at most 53 bits is exact: it is shifted left to a
    53-bit mantissa. *)
Lemma binary_round_exact (n : positive) (e : Z) :
  let d := Zpos (digits2_pos n) in
  d <= 53 -> -1074 <= e + d - 53 -> e + d - 53 <= 971 ->
  binary_round prec emax false n e =
  S754_finite false (Z.to_pos (Zpos n * 2 ^ (53 - d))) (e + d - 53) /\
  Zpos (digits2_pos (Z.to_pos (Zpos n * 2 ^ (53 - d)))) = 53.
Proof.
  intros d Hd Hlo Hhi.
  pose proof (digits2_pos_bounds n) as [Blo Bhi]. fold d in Blo, Bhi.
  assert (Hp : 0 < 2 ^ (53 - d)) by (apply Z.pow_pos_nonneg; lia).
  assert (Hdig : Zpos (digits2_pos (Z.to_pos (Zpos n * 2 ^ (53 - d)))) = 53).
  { apply digits2_pos_unique. rewrite Z2Pos.id by lia.
    change (53 - 1) with 52.
    assert (E1 : 2 ^ 52 = 2 ^ (d - 1) * 2 ^ (53 - d)).
    { rewrite <- Z.pow_add_r by lia. f_equal. lia. }
    assert (E2 : 2 ^ 53 = 2 ^ d * 2 ^ (53 - d)).
    { rewrite <- Z.pow_add_r by lia. f_equal. lia. }
    rewrite E1, E2. split; [apply Z.mul_le_mono_nonneg_r | apply Z.mul_lt_mono_pos_r]; lia. }
  split; [| exact Hdig].
  unfold binary_round. fold d.
  rewrite fexp_normal by lia.
  rewrite shl_align_le by lia.
  replace (e - (d + e - 53)) with (53 - d) by lia.
  replace (d + e - 53) with (e + d - 53) by lia.
  apply binary_round_aux_canonical; [exact Hdig | lia].
Qed.

(** Rounding a number of more than 53 bits drops the low bits, to nearest
    and ties to even; a carry out of the mantissa moves to the exponent. *)
Lemma binary_round_rounded (n : positive) (e : Z) :
  let d := Zpos (digits2_pos n) in
  let k := d - 53 in
  0 < k -> -1074 <= e + k -> e + k + 1 <= 971 ->
  2 ^ 52 <= rne (Zpos n) (2 ^ k) <= 2 ^ 53 /\
  binary_round prec emax false n e =
  if rne (Zpos n) (2 ^ k) =? 2 ^ 53
  then S754_finite false 4503599627370496 (e + k + 1)
  else S754_finite false (Z.to_pos (rne (Zpos n) (2 ^ k))) (e + k).
Proof.
  intros d k Hk Hlo Hhi.
  pose proof (digits2_pos_bounds n) as [Blo Bhi]. fold d in Blo, Bhi.
  assert (HK : 0 < 2 ^ k) by (apply Z.pow_pos_nonneg; lia).
  assert (Hq : 2 ^ 52 <= Zpos n / 2 ^ k < 2 ^ 53).
  { split.
    - apply Z.div_le_lower_bound; [lia |].
      rewrite Z.mul_comm, <- Z.pow_add_r by lia.
      replace (52 + k) with (d - 1) by lia. exact Blo.
    - apply Z.div_lt_upper_bound; [lia |].
      rewrite Z.mul_comm, <- Z.pow_add_r by lia.
      replace (53 + k) with d by lia. exact Bhi. }
  assert (Hr : 2 ^ 52 <= rne (Zpos n) (2 ^ k) <= 2 ^ 53).
  { unfold rne. destruct (_ <? _); [lia |].
    destruct (_ <? _); [lia |]. destruct (Z.even _); lia. }
  split; [exact Hr |].
  unfold binary_round. fold d.
  rewrite fexp_normal by lia.
  rewrite shl_align_ge by lia.
  unfold binary_round_aux, shr_fexp at 1. cbn [Zdigits2 shr_record_of_loc]. fold d.
  rewrite fexp_normal by lia.
  replace (d + e - 53 - e) with k by lia.
  destruct k as [| kp | kp] eqn:Ek; try lia.
  cbn [shr].
  change (Build_shr_record (Zpos n) false false) with (shr_state (Zpos n) 0).
  rewrite iter_pos_shr_state by lia. rewrite Z.add_0_l.
  rewrite round_shr_state by lia.
  set (m1 := rne (Zpos n) (2 ^ Zpos kp)) in *.
  destruct (Z.eqb_spec m1 (2 ^ 53)) as [E | E].
  - rewrite E. change (2 ^ 53) with (Zpos 9007199254740992).
    unfold shr_fexp. cbn [Zdigits2 shr_record_of_loc].
    change (Zpos (digits2_pos 9007199254740992)) with 54.
    rewrite fexp_normal by lia.
    replace (54 + (e + Zpos kp) - 53 - (e + Zpos kp)) with 1 by lia.
    cbn [shr iter_pos shr_1 shr_m orb].
    replace (e + Zpos kp + 1 <=? emax - prec) with true; [reflexivity |].
    symmetry. apply Z.leb_le. unfold emax, prec. lia.
  - assert (Hm1 : 2 ^ 52 <= m1 < 2 ^ 53) by lia.
    destruct m1 as [| m1p | m1p] eqn:Em; try lia.
    assert (Hd1 : Zpos (digits2_pos m1p) = 53) by (apply digits2_pos_unique; exact Hm1).
    unfold shr_fexp. cbn [Zdigits2 shr_record_of_loc]. rewrite Hd1, fexp_normal by lia.
    replace (53 + (e + Zpos kp) - 53 - (e + Zpos kp)) with 0 by lia.
    cbn [shr shr_m Z.to_pos].
    replace (e + Zpos kp <=? emax - prec) with true; [reflexivity |].
    symmetry. apply Z.leb_le. unfold emax, prec. lia.
Qed.

(** *** The difference [1 - p] *)

(** A positive difference of two positive finite floats is the rounding
    of the exact difference of the aligned mantissas. *)
Lemma sub_finite_pos (mx my : positive) (ex ey : Z) :
  let ez := Z.min ex ey in
  let n := Zpos mx * 2 ^ (ex - ez) - Zpos my * 2 ^ (ey - ez) in
  0 < n ->
  sub (S754_finite false mx ex) (S754_finite false my ey) =
  binary_round prec emax false (Z.to_pos n) ez.
Proof.
  intros ez n Hn. unfold sub, SFsub. fold ez.
  rewrite !shl_align_le by (subst ez; lia). cbn [fst cond_Zopp].
  assert (0 < 2 ^ (ex - ez)) by (apply Z.pow_pos_nonneg; subst ez; lia).
  assert (0 < 2 ^ (ey - ez)) by (apply Z.pow_pos_nonneg; subst ez; lia).
  rewrite !Z2Pos.id by lia. fold n.
  destruct n; try lia. reflexivity.
Qed.

Lemma sub_one_finite (m : positive) (e : Z) :
  e <= -53 -> Zpos m < 2 ^ (- e) ->
  sub f1 (S754_finite false m e) =
  binary_round prec emax false (Z.to_pos (2 ^ (- e) - Zpos m)) e.
Proof.
  intros He Hm. unfold f1.
  pose proof (sub_finite_pos 4503599627370496 m (-52) e) as H. cbv zeta in H.
  replace (Z.min (-52) e) with e in H by lia.
  rewrite Z.sub_diag in H. change (2 ^ 0) with 1 in H. rewrite Z.mul_1_r in H.
  change (Zpos 4503599627370496) with (2 ^ 52) in H.
  rewrite <- Z.pow_add_r in H by lia.
  replace (52 + (-52 - e)) with (- e) in H by lia.
  apply H. lia.
Qed.

(** On normal floats, [<] compares the values in units of [2^-105]. *)
Lemma lt_units (x y : float) :
  normal x -> normal y -> lt x y = (units x <? units y).
Proof.
  destruct x as [| | | [] mx ex]; try contradiction.
  destruct y as [| | | [] my ey]; try contradiction.
  intros [Hdx Hex] [Hdy Hey].
  pose proof (digits2_pos_bounds mx) as Bx. rewrite Hdx in Bx.
  pose proof (digits2_pos_bounds my) as By. rewrite Hdy in By.
  change (53 - 1) with 52 in Bx, By.
  unfold lt, SFltb, SFcompare, units.
  destruct (Z.compare_spec ex ey) as [E | L | G].
  - subst ey. change (PosDef.Pos.compare_cont Eq mx my) with (Pos.compare mx my).
    assert (Hp : 0 < 2 ^ (ex + 105)) by (apply Z.pow_pos_nonneg; lia).
    destruct (Pos.compare_spec mx my) as [E | L | G]; symmetry.
    + subst my. apply Z.ltb_irrefl.
    + apply Z.ltb_lt. apply Z.mul_lt_mono_pos_r; lia.
    + apply Z.ltb_ge. apply Z.mul_le_mono_nonneg_r; lia.
  - symmetry. apply Z.ltb_lt.
    assert (Hp : 0 < 2 ^ (ex + 105)) by (apply Z.pow_pos_nonneg; lia).
    assert (Hle : 2 * 2 ^ (ex + 105) <= 2 ^ (ey + 105)).
    { rewrite <- Z.pow_succ_r by lia. apply Z.pow_le_mono_r; lia. }
    nia.
  - symmetry. apply Z.ltb_ge.
    assert (Hp : 0 < 2 ^ (ey + 105)) by (apply Z.pow_pos_nonneg; lia).
    assert (Hle : 2 * 2 ^ (ey + 105) <= 2 ^ (ex + 105)).
    { rewrite <- Z.pow_succ_r by lia. apply Z.pow_le_mono_r; lia. }
    nia.
Qed.

Lemma normal_literals :
  normal f0_1 /\ normal f0_2 /\ normal f0_3 /\
  normal f0_7 /\ normal f0_8 /\ normal f0_9 /\ normal f1.
Proof. repeat split; vm_compute; congruence. Qed.

(** On a normal float the confidence ladder is the ladder on units. *)
Lemma confidence_units (p : float) :
  normal p -> get_confidence_level p = confidence_of_units (units p).
Proof.
  intros Hp.
  destruct normal_literals as (N1 & N2 & N3 & N7 & N8 & N9 & _).
  unfold get_confidence_level, confidence_of_units, gt.
  rewrite !lt_units by assumption. reflexivity.
Qed.

Lemma pow2_le_inv (a b : Z) : 0 <= a -> 0 <= b -> 2 ^ a <= 2 ^ b -> a <= b.
Proof.
  intros Ha Hb H. destruct (Z.le_gt_cases a b) as [| Hgt]; [assumption |].
  assert (2 ^ b < 2 ^ a) by (apply Z.pow_lt_mono_r; lia). lia.
Qed.

(** [1 - p] is exact for [p] in [[1/2, 1)]. *)
Lemma sub_one_upper (m : positive) :
  2 ^ 52 <= Zpos m < 2 ^ 53 ->
  normal (sub f1 (S754_finite false m (-53))) /\
  units (sub f1 (S754_finite false m (-53))) = (2 ^ 53 - Zpos m) * 2 ^ 52.
Proof.
  intros Hm. rewrite sub_one_finite by (change (- -53) with 53; lia).
  change (- -53) with 53.
  set (n := Z.to_pos (2 ^ 53 - Zpos m)).
  assert (Hn : Zpos n = 2 ^ 53 - Zpos m) by (subst n; rewrite Z2Pos.id; lia).
  pose proof (digits2_pos_bounds n) as [Blo Bhi].
  set (d := Zpos (digits2_pos n)) in *.
  assert (Hd0 : 0 < d) by (subst d; lia).
  assert (Hd : d <= 53).
  { assert (d - 1 <= 52); [| lia]. apply pow2_le_inv; lia. }
  destruct (binary_round_exact n (-53)) as [-> Hdig]; fold d; try lia.
  split.
  - cbn [normal]. split; [exact Hdig | lia].
  - cbn [units]. assert (0 < 2 ^ (53 - d)) by (apply Z.pow_pos_nonneg; lia).
    rewrite Z2Pos.id by lia. rewrite Hn, <- Z.mul_assoc, <- Z.pow_add_r by lia.
    do 2 f_equal. lia.
Qed.

(** [1 - p] for [0 < p < 1/2]: the difference is rounded to a multiple of
    [2^-53]. *)
Lemma sub_one_lower (m : positive) (e : Z) :
  -1074 <= e <= -54 -> Zpos m < 2 ^ 53 ->
  let r := rne (2 ^ (- e) - Zpos m) (2 ^ (-53 - e)) in
  2 ^ 52 <= r <= 2 ^ 53 /\
  normal (sub f1 (S754_finite false m e)) /\
  units (sub f1 (S754_finite false m e)) = r * 2 ^ 52.
Proof.
  intros He Hm r.
  assert (Hlt : 2 * 2 ^ 53 <= 2 ^ (- e)).
  { rewrite <- (Z.pow_succ_r 2 53) by lia. apply Z.pow_le_mono_r; lia. }
  rewrite sub_one_finite by lia.
  set (n := Z.to_pos (2 ^ (- e) - Zpos m)).
  assert (Hn : Zpos n = 2 ^ (- e) - Zpos m) by (subst n; rewrite Z2Pos.id; lia).
  assert (Hd : Zpos (digits2_pos n) = - e).
  { apply digits2_pos_unique. rewrite Hn.
    assert (2 ^ (- e) = 2 * 2 ^ (- e - 1)).
    { rewrite <- (Z.pow_succ_r 2 (- e - 1)) by lia. f_equal. lia. }
    lia. }
  pose proof (binary_round_rounded n e) as H. cbv zeta in H.
  rewrite Hd, Hn in H. replace (- e - 53) with (-53 - e) in H by lia.
  fold r in H. destruct H as [Hr ->]; try lia.
  split; [exact Hr |].
  destruct (Z.eqb_spec r (2 ^ 53)) as [E | E].
  - replace (e + (-53 - e) + 1) with (-52) by lia. split.
    + vm_compute. split; congruence.
    + rewrite E. reflexivity.
  - replace (e + (-53 - e)) with (-53) by lia.
    assert (Hr' : 2 ^ 52 <= r < 2 ^ 53) by lia.
    destruct r as [| rp | rp]; try lia. split.
    + cbn [normal Z.to_pos]. split; [| lia].
      apply digits2_pos_unique. exact Hr'.
    + reflexivity.
Qed.

Ltac numerals :=
  repeat match goal with
  | |- context [units ?f] =>
      match f with
      | f0_1 => idtac | f0_2 => idtac | f0_3 => idtac
      | f0_7 => idtac | f0_8 => idtac | f0_9 => idtac
      end;
      let v := eval vm_compute in (units f) in change (units f) with v
  | |- context [2 ^ ?k] =>
      let v := eval vm_compute in (2 ^ k) in change (2 ^ k) with v
  end.

Ltac split_ltb :=
  repeat match goal with
  | |- context [(?a <? ?b)%Z] =>
      destruct (Z.ltb_spec a b); try (exfalso; lia)
  end;
  cbn [orb]; first [reflexivity | exfalso; lia].

(** The ladder at [m * 2^-53] and at its exact mirror, for [p] in
    [[1/2, 1)]. *)
Lemma ladder_upper (m : Z) :
  2 ^ 52 <= m < 2 ^ 53 ->
  m <> 7205759403792794 -> m <> 8106479329266893 ->
  confidence_of_units (m * 2 ^ 52) = confidence_of_units ((2 ^ 53 - m) * 2 ^ 52).
Proof.
  unfold confidence_of_units. numerals. intros Hm H8 H9.
  split_ltb.
Qed.

(** *** The ladder on both sides *)

Ltac rne_cases n u :=
  unfold rne;
  let q := fresh "q" in
  let r := fresh "r" in
  let Hdm := fresh "Hdm" in
  let Hb := fresh "Hb" in
  pose proof (Z.div_mod n u ltac:(lia)) as Hdm;
  pose proof (Z.mod_pos_bound n u ltac:(lia)) as Hb;
  set (q := n / u) in *; set (r := n mod u) in *;
  clearbody q r;
  let Ev := fresh "Ev" in
  let q' := fresh "q'" in
  destruct (Z.ltb_spec (2 * r) u);
  [ | destruct (Z.ltb_spec u (2 * r));
      [ | destruct (Z.even q) eqn:Ev;
          [ apply Z.even_spec in Ev; destruct Ev as [q' Ev]
          | apply (f_equal negb) in Ev; rewrite Z.negb_even in Ev; cbn [negb] in Ev;
            apply Z.odd_spec in Ev; destruct Ev as [q' Ev] ] ] ].

(** The ladder at [m * 2^-54], [m * 2^-55], [m * 2^-56] and at the rounded
    mirror, for [p] in [[1/4, 1/2)], [[1/8, 1/4)] and [[1/16, 1/8)]. *)
Lemma ladder_lower_1 (m : Z) :
  2 ^ 52 <= m < 2 ^ 53 ->
  confidence_of_units (m * 2 ^ 51) =
  confidence_of_units (rne (2 ^ 54 - m) (2 ^ 1) * 2 ^ 52).
Proof.
  unfold confidence_of_units. numerals. intros Hm.
  rne_cases (18014398509481984 - m) 2; split_ltb.
Qed.

Lemma ladder_lower_2 (m : Z) :
  2 ^ 52 <= m < 2 ^ 53 ->
  m <> 7205759403792790 -> m <> 7205759403792791 ->
  m <> 7205759403792792 -> m <> 7205759403792793 ->
  confidence_of_units (m * 2 ^ 50) =
  confidence_of_units (rne (2 ^ 55 - m) (2 ^ 2) * 2 ^ 52).
Proof.
  unfold confidence_of_units. numerals. intros Hm H0 H1 H2 H3.
  rne_cases (36028797018963968 - m) 4; split_ltb.
Qed.

Lemma ladder_lower_3 (m : Z) :
  2 ^ 52 <= m < 2 ^ 53 ->
  m <> 7205759403792789 -> m <> 7205759403792790 ->
  m <> 7205759403792791 -> m <> 7205759403792792 ->
  m <> 7205759403792793 ->
  confidence_of_units (m * 2 ^ 49) =
  confidence_of_units (rne (2 ^ 56 - m) (2 ^ 3) * 2 ^ 52).
Proof.
  unfold confidence_of_units. numerals. intros Hm H0 H1 H2 H3 H4.
  rne_cases (72057594037927936 - m) 8; split_ltb.
Qed.

Lemma rne_lower_bound (n u : Z) : 0 < u -> n / u <= rne n u.
Proof.
  intros Hu. unfold rne.
  destruct (_ <? _); [lia |]. destruct (_ <? _); [lia |].
  destruct (Z.even _); lia.
Qed.

(** Below [2^-4] both [p] and the rounded mirror are in the outermost
    tier. *)
Lemma ladder_tiny (m : positive) (e : Z) :
  -1074 <= e <= -57 -> Zpos m < 2 ^ 53 ->
  get_confidence_level (S754_finite false m e) = "Very High" /\
  confidence_of_units (rne (2 ^ (- e) - Zpos m) (2 ^ (-53 - e)) * 2 ^ 52) =
  "Very High".
Proof.
  intros He Hm. split.
  - unfold get_confidence_level, lt, f0_1, SFltb, SFcompare.
    rewrite (proj2 (Z.compare_lt_iff e (-56))) by lia. reflexivity.
  - assert (HK : 2 ^ 4 <= 2 ^ (-53 - e)) by (apply Z.pow_le_mono_r; lia).
    assert (E : 2 ^ (- e) = 2 ^ 53 * 2 ^ (-53 - e)).
    { rewrite <- Z.pow_add_r by lia. f_equal. lia. }
    rewrite E.
    set (K := 2 ^ (-53 - e)) in *.
    assert (Hq : 2 ^ 53 - 2 ^ 49 <= (2 ^ 53 * K - Zpos m) / K).
    { apply Z.div_le_lower_bound; [lia |]. revert HK Hm. numerals. lia. }
    pose proof (rne_lower_bound (2 ^ 53 * K - Zpos m) K ltac:(lia)) as Hr.
    set (r := rne _ K) in *. clearbody r.
    unfold confidence_of_units. revert Hq Hr. numerals. intros Hq Hr.
    split_ltb.
Qed.

(** A finite binary64 float is normal, with a 53-bit mantissa, or
    subnormal, with the least exponent. *)
Lemma valid_finite_inv (s : bool) (m : positive) (e : Z) :
  valid (S754_finite s m e) = true ->
  (Zpos (digits2_pos m) = 53 /\ -1074 <= e <= 971) \/
  (Zpos (digits2_pos m) < 53 /\ e = -1074).
Proof.
  unfold valid, valid_binary, bounded, canonical_mantissa, fexp, emin, prec, emax.
  intros H. apply andb_true_iff in H as [H1 H2].
  apply Z.eqb_eq in H1. apply Z.leb_le in H2. lia.
Qed.

Lemma le_finite_inv (m c : positive) (e ec : Z) :
  le (S754_finite false m e) (S754_finite false c ec) = true ->
  e < ec \/ (e = ec /\ Zpos m <= Zpos c).
Proof.
  unfold le, SFleb, SFcompare.
  destruct (Z.compare_spec e ec) as [E | L | G].
  - change (PosDef.Pos.compare_cont Eq m c) with (Pos.compare m c).
    destruct (Pos.compare_spec m c) as [E' | L | G]; intros H.
    + right. split; [exact E |]. rewrite E'. apply Z.le_refl.
    + right. split; [exact E |]. apply Z.lt_le_incl. exact L.
    + exfalso. exact (diff_false_true H).
  - intros _. left. exact L.
  - intros H. exfalso. exact (diff_false_true H).
Qed.

Lemma le_one_inv (m : positive) (e : Z) :
  le (S754_finite false m e) f1 = true ->
  e < -52 \/ (e = -52 /\ Zpos m <= 2 ^ 52).
Proof. exact (le_finite_inv m 4503599627370496 e (-52)). Qed.

(** At each of the eleven floats the two tiers differ. *)
Lemma asymmetric_points_differ (p : float) :
  In p asymmetric_points ->
  get_confidence_level p <> get_confidence_level (sub f1 p).
Proof.
  unfold asymmetric_points. cbn [In].
  intros H; repeat destruct H as [<- | H]; try contradiction;
    vm_compute; discriminate.
Qed.

Ltac in_list := cbn [In]; repeat (first [left; reflexivity | right]).

Lemma mantissa_not_point (p : list float) (m c : positive) (e : Z) :
  ~ In (S754_finite false m e) p ->
  In (S754_finite false c e) p -> Zpos m <> Zpos c.
Proof. intros Hnot Hin E. injection E as ->. exact (Hnot Hin). Qed.

(** Away from the eleven floats the confidence tier of [p] is that of
    [1 - p]. *)
Lemma confidence_symmetric_away (p : float) :
  valid p = true -> in_unit p = true ->
  ~ In p asymmetric_points ->
  get_confidence_level p = get_confidence_level (sub f1 p).
Proof.
  intros Hv Hu Hnot.
  unfold in_unit in Hu. apply andb_true_iff in Hu as [H0 H1].
  destruct p as [s | s | | s m e].
  - destruct s; vm_compute; reflexivity.
  - destruct s; vm_compute in H0, H1; discriminate.
  - discriminate H0.
  - destruct s; [discriminate H0 |].
    destruct (le_one_inv m e H1) as [He | [-> Hm]].
    + destruct (valid_finite_inv _ _ _ Hv) as [[Hd Hr] | [Hd ->]].
      * pose proof (digits2_pos_bounds m) as Hb. rewrite Hd in Hb.
        change (53 - 1) with 52 in Hb.
        assert (Hcases : e = -53 \/ e = -54 \/ e = -55 \/ e = -56 \/ e <= -57) by lia.
        destruct Hcases as [-> | [-> | [-> | [-> | He']]]].
        -- destruct (sub_one_upper m Hb) as [Nq Uq].
           rewrite (confidence_units _ Nq), Uq.
           rewrite confidence_units by (cbn [normal]; lia).
           cbn [units]. change (-53 + 105) with 52.
           apply ladder_upper; [exact Hb | |];
             apply (mantissa_not_point _ _ _ _ Hnot); unfold asymmetric_points; in_list.
        -- destruct (sub_one_lower m (-54)) as (_ & Nq & Uq); try lia.
           rewrite (confidence_units _ Nq), Uq.
           rewrite confidence_units by (cbn [normal]; lia).
           cbn [units]. change (-54 + 105) with 51.
           change (- -54) with 54. change (-53 - -54) with 1.
           apply ladder_lower_1. exact Hb.
        -- destruct (sub_one_lower m (-55)) as (_ & Nq & Uq); try lia.
           rewrite (confidence_units _ Nq), Uq.
           rewrite confidence_units by (cbn [normal]; lia).
           cbn [units]. change (-55 + 105) with 50.
           change (- -55) with 55. change (-53 - -55) with 2.
           apply ladder_lower_2; [exact Hb | | | |];
             apply (mantissa_not_point _ _ _ _ Hnot); unfold asymmetric_points; in_list.
        -- destruct (sub_one_lower m (-56)) as (_ & Nq & Uq); try lia.
           rewrite (confidence_units _ Nq), Uq.
           rewrite confidence_units by (cbn [normal]; lia).
           cbn [units]. change (-56 + 105) with 49.
           change (- -56) with 56. change (-53 - -56) with 3.
           apply ladder_lower_3; [exact Hb | | | | |];
             apply (mantissa_not_point _ _ _ _ Hnot); unfold asymmetric_points; in_list.
        -- destruct (sub_one_lower m e) as (_ & Nq & Uq); try lia.
           rewrite (confidence_units _ Nq), Uq.
           destruct (ladder_tiny m e) as [-> ->]; try lia. reflexivity.
      * pose proof (digits2_pos_bounds m) as Hb.
        assert (Hm : Zpos m < 2 ^ 53).
        { assert (2 ^ Zpos (digits2_pos m) <= 2 ^ 53) by (apply Z.pow_le_mono_r; lia).
          lia. }
        destruct (sub_one_lower m (-1074)) as (_ & Nq & Uq); try lia.
        rewrite (confidence_units _ Nq), Uq.
        destruct (ladder_tiny m (-1074)) as [-> ->]; try lia. reflexivity.
    + destruct (valid_finite_inv _ _ _ Hv) as [[Hd Hr] | [Hd ?]]; [| lia].
      pose proof (digits2_pos_bounds m) as Hb. rewrite Hd in Hb.
      change (53 - 1) with 52 in Hb.
      assert (m = 4503599627370496%positive) as ->.
      { change (2 ^ 52) with (Zpos 4503599627370496) in *. lia. }
      vm_compute. reflexivity.
Qed.

(** C4, as stated, fails: [0.9] is in [0,1], its confidence tier is High,
    and the float [1 - 0.9] is [0.09999999999999998], below [0.1], whose
    tier is Very High. *)
Lemma confidence_not_symmetric_at_0_9 :
  valid f0_9 = true /\ in_unit f0_9 = true /\
  sub f1 f0_9 = S754_finite false 7205759403792792 (-56) /\
  get_confidence_level f0_9 = "High" /\
  get_confidence_level (sub f1 f0_9) = "Very High" /\
  get_confidence_level f0_9 <> get_confidence_level (sub f1 f0_9).
Proof.
  vm_compute. repeat split. discriminate.
Qed.

(** C4, amended: for every float [p] of [0,1], the confidence tier of [p]
    equals the confidence tier of the float [1 - p] exactly when [p] is
    none of eleven floats next to the thresholds: the five floats next
    below [0.1], the four floats next below [0.2], and [0.8] and [0.9]. *)
Theorem confidence_symmetric_except (p : float)
    (Hvalid : valid p = true) (Hunit : in_unit p = true) :
  get_confidence_level p = get_confidence_level (sub f1 p) <->
  ~ In p asymmetric_points.
Proof.
  split.
  - intros Heq Hin. exact (asymmetric_points_differ p Hin Heq).
  - apply confidence_symmetric_away; assumption.
Qed.

Lemma confidence_symmetric_except_witness :
  valid f0_3 = true /\ in_unit f0_3 = true /\
  ~ In f0_3 asymmetric_points /\
  get_confidence_level f0_3 = get_confidence_level (sub f1 f0_3).
Proof.
  assert (Hnot : ~ In f0_3 asymmetric_points).
  { unfold asymmetric_points. cbn [In]. intros H.
    repeat destruct H as [H | H]; try discriminate H. exact H. }
  split; [reflexivity |]. split; [reflexivity |]. split; [exact Hnot |].
  exact (proj2 (confidence_symmetric_except f0_3 eq_refl eq_refl) Hnot).
Defined.

(** * Further properties *)

(** ** The input normaliser *)

(** X1: the frame built from a customer has the eleven training columns,
    in order and without a repeated name, one row in each, and the customer
    is read back from it unchanged: nothing is lost, and two customers with
    the same frame are the same. *)
Theorem prepare_input_data_round_trip (customer : CustomerData) :
  customer_of_frame (prepare_input_data customer) = Some customer /\
  map fst (prepare_input_data customer) = feature_columns /\
  NoDup feature_columns /\
  Forall (fun column => List.length (snd column) = 1%nat)
    (prepare_input_data customer) /\
  (forall other,
     prepare_input_data other = prepare_input_data customer -> other = customer).
Proof.
  assert (Hback : forall c, customer_of_frame (prepare_input_data c) = Some c).
  { intros c. destruct c. vm_compute. reflexivity. }
  split; [apply Hback |].
  split; [reflexivity |].
  split.
  { unfold feature_columns.
    repeat (constructor;
            [cbn [In]; intros H; repeat destruct H as [H | H];
             try discriminate H; try contradiction |]).
    constructor. }
  split.
  { unfold prepare_input_data. repeat constructor. }
  intros other Heq.
  pose proof (Hback other) as Ho. rewrite Heq, Hback in Ho.
  injection Ho as ->. reflexivity.
Qed.

(** ** The status endpoints *)

(** X2: the fixed counters of [/stats] agree with each other: active and
    churned customers add up to the total, so do the three risk tiers, and
    the churn rate is the quotient of churned by total customers. *)
Theorem get_statistics_consistent :
  exists total active churned high medium low,
    jdict_get "total_customers" get_statistics = Some (JInt total) /\
    jdict_get "active_customers" get_statistics = Some (JInt active) /\
    jdict_get "churned_customers" get_statistics = Some (JInt churned) /\
    jdict_get "high_risk_customers" get_statistics = Some (JInt high) /\
    jdict_get "medium_risk_customers" get_statistics = Some (JInt medium) /\
    jdict_get "low_risk_customers" get_statistics = Some (JInt low) /\
    active + churned = total /\
    high + medium + low = total /\
    jdict_get "churn_rate" get_statistics = Some (JFloat (int_truediv churned total)).
Proof.
  exists 1200000, 1029600, 170400, 168000, 216000, 816000.
  vm_compute. repeat split.
Qed.

(** With both models loaded a single request never raises the 503
    exception. *)
Lemma predict_customer_not_503 (cm : ChurnModel) (vm : ClvModel)
    (customer : CustomerData) (log : list event) :
  ~ raises_503 (predict_customer (Some cm) (Some vm) customer log).
Proof.
  intros [d H].
  destruct (score cm vm customer) as [e | [p v]] eqn:E.
  - rewrite (predict_customer_fail cm vm customer e log E) in H.
    cbn [snd] in H. discriminate H.
  - rewrite (predict_customer_ok cm vm customer p v log E) in H.
    cbn [snd] in H. discriminate H.
Qed.

(** A batch either scores every customer, or splits at its first failing
    customer. *)
Lemma batch_scores_or_fails (cm : ChurnModel) (vm : ClvModel)
    (customers : list CustomerData) :
  Forall (scores_ok cm vm) customers \/
  exists scored customer rest e,
    customers = (scored ++ customer :: rest)%list /\
    Forall (scores_ok cm vm) scored /\ score cm vm customer = inl e.
Proof.
  induction customers as [| c customers IH].
  - left. constructor.
  - destruct (scores_ok_or_fail cm vm c) as [Hok | [e He]].
    + destruct IH as [Hall | (scored & customer & rest & e & -> & Hs & He)].
      * left. constructor; assumption.
      * right. exists (c :: scored), customer, rest, e.
        split; [reflexivity |]. split; [constructor; assumption | exact He].
    + right. exists [], c, customers, e.
      split; [reflexivity |]. split; [constructor | exact He].
Qed.

Lemma batch_predict_not_503 (cm : ChurnModel) (vm : ClvModel)
    (customers : list CustomerData) (log : list event) :
  ~ raises_503 (batch_predict (Some cm) (Some vm) customers log).
Proof.
  intros [d H].
  destruct (batch_scores_or_fails cm vm customers)
    as [Hall | (scored & customer & rest & e & -> & Hs & He)].
  - rewrite (batch_predict_ok cm vm customers log Hall) in H.
    cbn [snd] in H. discriminate H.
  - rewrite (batch_predict_fail cm vm scored rest customer e log Hs He) in H.
    cbn [snd] in H. discriminate H.
Qed.

(** X3: [/online] reports [models_loaded] as false exactly when every
    single and every batch request raises the 503 exception, and as true
    exactly when no request does. *)
Theorem online_reports_scoring_availability
    (churn_model : option ChurnModel) (clv_model : option ClvModel) :
  (jdict_get "models_loaded" (root churn_model clv_model) = Some (JBool false) <->
   forall customer log,
     raises_503 (predict_customer churn_model clv_model customer log)) /\
  (jdict_get "models_loaded" (root churn_model clv_model) = Some (JBool false) <->
   forall customers log,
     raises_503 (batch_predict churn_model clv_model customers log)) /\
  (jdict_get "models_loaded" (root churn_model clv_model) = Some (JBool true) <->
   forall customer log,
     ~ raises_503 (predict_customer churn_model clv_model customer log)) /\
  (jdict_get "models_loaded" (root churn_model clv_model) = Some (JBool true) <->
   forall customers log,
     ~ raises_503 (batch_predict churn_model clv_model customers log)).
Proof.
  assert (Hget : jdict_get "models_loaded" (root churn_model clv_model) =
                 Some (JBool (is_not_none churn_model && is_not_none clv_model)))
    by reflexivity.
  rewrite Hget. clear Hget.
  destruct churn_model as [cm |], clv_model as [vm |]; cbn [is_not_none andb].
  - repeat split; intros H; try discriminate H.
    + exfalso. exact (predict_customer_not_503 cm vm example_customer [] (H _ _)).
    + exfalso. exact (batch_predict_not_503 cm vm [] [] (H _ _)).
    + intros customer log. apply predict_customer_not_503.
    + intros customers log. apply batch_predict_not_503.
  - repeat split; intros H; try reflexivity; try discriminate H.
    + intros customer log. eexists. reflexivity.
    + intros customers log. eexists. reflexivity.
    + exfalso. apply (H example_customer []). eexists. reflexivity.
    + exfalso. apply (H [] []). eexists. reflexivity.
  - repeat split; intros H; try reflexivity; try discriminate H.
    + intros customer log. eexists. reflexivity.
    + intros customers log. eexists. reflexivity.
    + exfalso. apply (H example_customer []). eexists. reflexivity.
    + exfalso. apply (H [] []). eexists. reflexivity.
  - repeat split; intros H; try reflexivity; try discriminate H.
    + intros customer log. eexists. reflexivity.
    + intros customers log. eexists. reflexivity.
    + exfalso. apply (H example_customer []). eexists. reflexivity.
    + exfalso. apply (H [] []). eexists. reflexivity.
Qed.

(** X4: [/health] is "healthy" exactly when it reports both models as
    "loaded", and otherwise "degraded"; "healthy" implies that [/online]
    reports the models as loaded, and the converse holds when loaded model
    objects are true; a loaded model object that is false is reported as
    "not loaded" although requests are scored with it. *)
Theorem health_check_consistent
    (churn_model : option ChurnModel) (clv_model : option ClvModel)
    (churn_truthy : ChurnModel -> bool) (clv_truthy : ClvModel -> bool) :
  let health := health_check churn_model clv_model churn_truthy clv_truthy in
  (jdict_get "status" health = Some (JStr "healthy") \/
   jdict_get "status" health = Some (JStr "degraded")) /\
  (jdict_get "status" health = Some (JStr "healthy") <->
   jdict_get "churn_model" health = Some (JStr "loaded") /\
   jdict_get "clv_model" health = Some (JStr "loaded")) /\
  (jdict_get "status" health = Some (JStr "healthy") ->
   jdict_get "models_loaded" (root churn_model clv_model) = Some (JBool true)) /\
  ((forall cm, churn_truthy cm = true) -> (forall vm, clv_truthy vm = true) ->
   jdict_get "models_loaded" (root churn_model clv_model) = Some (JBool true) ->
   jdict_get "status" health = Some (JStr "healthy")) /\
  (forall cm vm,
     churn_model = Some cm -> clv_model = Some vm -> churn_truthy cm = false ->
     jdict_get "status" health = Some (JStr "degraded") /\
     jdict_get "churn_model" health = Some (JStr "not loaded") /\
     forall customer log,
       ~ raises_503 (predict_customer churn_model clv_model customer log)).
Proof.
  cbv zeta.
  assert (Hs : jdict_get "status"
                 (health_check churn_model clv_model churn_truthy clv_truthy) =
               Some (JStr (if truth churn_truthy churn_model &&
                              truth clv_truthy clv_model
                           then "healthy" else "degraded"))) by reflexivity.
  assert (Hc : jdict_get "churn_model"
                 (health_check churn_model clv_model churn_truthy clv_truthy) =
               Some (JStr (if truth churn_truthy churn_model
                           then "loaded" else "not loaded"))) by reflexivity.
  assert (Hv : jdict_get "clv_model"
                 (health_check churn_model clv_model churn_truthy clv_truthy) =
               Some (JStr (if truth clv_truthy clv_model
                           then "loaded" else "not loaded"))) by reflexivity.
  assert (Hr : jdict_get "models_loaded" (root churn_model clv_model) =
               Some (JBool (is_not_none churn_model && is_not_none clv_model)))
    by reflexivity.
  rewrite Hs, Hc, Hv, Hr. clear Hs Hc Hv Hr.
  split; [destruct (_ && _); auto |].
  split.
  { destruct (truth churn_truthy churn_model), (truth clv_truthy clv_model);
      cbn [andb]; split; try (intros [H1 H2]); try intros H;
      try discriminate; auto. }
  split.
  { destruct churn_model as [cm |], clv_model as [vm |];
      cbn [truth is_not_none andb]; intros H; try reflexivity;
      try discriminate H.
    - destruct (churn_truthy cm); discriminate H. }
  split.
  { intros Hct Hvt.
    destruct churn_model as [cm |], clv_model as [vm |];
      cbn [truth is_not_none andb]; intros H; try discriminate H.
    rewrite Hct, Hvt. reflexivity. }
  intros cm vm -> -> Hfalse. cbn [truth]. rewrite Hfalse. cbn [andb].
  split; [reflexivity |]. split; [reflexivity |].
  intros customer log. apply predict_customer_not_503.
Qed.

(** ** Loading the models *)

(** X5: if loading either model file raises, both handles are [None], also
    the churn handle when only the value model failed; the message of the
    exception is printed, every single and batch request then raises the
    503 exception, [/online] reports the models as not loaded and [/health]
    is "degraded"; the value model file is not opened when the churn model
    file failed. *)
Theorem load_failure_disables_scoring
    (load_churn : string -> PyException + option ChurnModel)
    (load_clv : string -> PyException + option ClvModel)
    (Hfail : (exists e, load_churn "best_churn_model_trf.pkl" = inl e) \/
             (exists e, load_clv "best_clv_model_lnr.pkl" = inl e)) :
  let s := load_models load_churn load_clv in
  loaded_churn s = None /\ loaded_clv s = None /\
  (exists e, printed s = ["✗ Error loading models: " ++ exc_str e] /\
             (load_churn "best_churn_model_trf.pkl" = inl e \/
              load_clv "best_clv_model_lnr.pkl" = inl e)) /\
  (forall customer log,
     raises_503 (predict_customer (loaded_churn s) (loaded_clv s) customer log)) /\
  (forall customers log,
     raises_503 (batch_predict (loaded_churn s) (loaded_clv s) customers log)) /\
  jdict_get "models_loaded" (root (loaded_churn s) (loaded_clv s)) =
    Some (JBool false) /\
  (forall churn_truthy clv_truthy,
     jdict_get "status"
       (health_check (loaded_churn s) (loaded_clv s) churn_truthy clv_truthy) =
     Some (JStr "degraded")) /\
  ((exists e, load_churn "best_churn_model_trf.pkl" = inl e) ->
   load_calls s = ["best_churn_model_trf.pkl"]).
Proof.
  cbv zeta.
  assert (Hnone : loaded_churn (load_models load_churn load_clv) = None /\
                  loaded_clv (load_models load_churn load_clv) = None).
  { unfold load_models.
    destruct (load_churn _) as [e | cm]; [split; reflexivity |].
    destruct (load_clv _) as [e | vm]; [split; reflexivity |].
    destruct Hfail as [[e He] | [e He]]; discriminate He. }
  destruct Hnone as [Hc Hv].
  split; [exact Hc |]. split; [exact Hv |].
  split.
  { unfold load_models.
    destruct (load_churn _) as [e | cm]; [exists e; split; auto |].
    destruct (load_clv _) as [e | vm]; [exists e; split; auto |].
    destruct Hfail as [[e He] | [e He]]; discriminate He. }
  rewrite Hc, Hv.
  split; [intros customer log; eexists; reflexivity |].
  split; [intros customers log; eexists; reflexivity |].
  split; [reflexivity |].
  split; [intros churn_truthy clv_truthy; reflexivity |].
  intros [e He]. unfold load_models. rewrite He. reflexivity.
Qed.

Lemma load_failure_disables_scoring_witness :
  loaded_churn (load_models (load_returning (constant_churn f0_5))
                  (load_raising "no such file")) = None /\
  printed (load_models (load_returning (constant_churn f0_5))
             (load_raising "no such file")) =
    ["✗ Error loading models: no such file"] /\
  raises_503 (predict_customer
                (loaded_churn (load_models (load_returning (constant_churn f0_5))
                                 (load_raising "no such file")))
                (loaded_clv (load_models (load_returning (constant_churn f0_5))
                               (load_raising "no such file")))
                example_customer []).
Proof.
  pose proof (load_failure_disables_scoring
                (load_returning (constant_churn f0_5))
                (load_raising "no such file")
                (or_intror (ex_intro _ {| exc_str := "no such file" |} eq_refl)))
    as H.
  cbv zeta in H. destruct H as (Hc & _ & _ & Hp & _).
  split; [exact Hc |]. split; [reflexivity |]. apply Hp.
Defined.

(** X13: after start-up, requests are scored (no request raises the 503
    exception) exactly when both loads returned a model object; the success
    line is printed exactly when neither load raised, which also covers a
    file that unpickles to [None]. *)
Theorem load_success_enables_scoring
    (load_churn : string -> PyException + option ChurnModel)
    (load_clv : string -> PyException + option ClvModel) :
  let s := load_models load_churn load_clv in
  ((forall customer log,
      ~ raises_503 (predict_customer (loaded_churn s) (loaded_clv s) customer log)) <->
   exists cm vm,
     load_churn "best_churn_model_trf.pkl" = inr (Some cm) /\
     load_clv "best_clv_model_lnr.pkl" = inr (Some vm)) /\
  (printed s = ["✓ Models loaded successfully!"] <->
   exists churn_object clv_object,
     load_churn "best_churn_model_trf.pkl" = inr churn_object /\
     load_clv "best_clv_model_lnr.pkl" = inr clv_object) /\
  (forall cm vm,
     load_churn "best_churn_model_trf.pkl" = inr (Some cm) ->
     load_clv "best_clv_model_lnr.pkl" = inr (Some vm) ->
     loaded_churn s = Some cm /\ loaded_clv s = Some vm).
Proof.
  cbv zeta. unfold load_models.
  destruct (load_churn _) as [e | churn_object];
    [| destruct (load_clv _) as [e | clv_object] ];
    cbn [loaded_churn loaded_clv printed].
  - split; [| split].
    + split.
      * intros H. exfalso. apply (H example_customer []). eexists. reflexivity.
      * intros (cm & vm & H & _). discriminate H.
    + split.
      * intros H. discriminate H.
      * intros (c & v & H & _). discriminate H.
    + intros cm vm H. discriminate H.
  - split; [| split].
    + split.
      * intros H. exfalso. apply (H example_customer []). eexists. reflexivity.
      * intros (cm & vm & _ & H). discriminate H.
    + split.
      * intros H. discriminate H.
      * intros (c & v & _ & H). discriminate H.
    + intros cm vm _ H. discriminate H.
  - split; [| split].
    + split.
      * intros H. destruct churn_object as [cm |], clv_object as [vm |];
          try (exfalso; apply (H example_customer []); eexists; reflexivity).
        exists cm, vm. split; reflexivity.
      * intros (cm & vm & [= ->] & [= ->]) customer log.
        apply predict_customer_not_503.
    + split.
      * intros _. exists churn_object, clv_object. split; reflexivity.
      * intros _. reflexivity.
    + intros cm vm [= ->] [= ->]. split; reflexivity.
Qed.

(** ** The single-record handler *)

(** X6: a single request ends in exactly one of three ways.  It raises the
    503 exception, with nothing invoked, exactly when a model handle is
    [None]; it raises the 500 exception exactly when both models are loaded
    and one of them raises for this customer; otherwise it returns the
    decision on the two scores.  No other status code occurs. *)
Theorem predict_customer_outcomes
    (churn_model : option ChurnModel) (clv_model : option ClvModel)
    (customer : CustomerData) (log : list event) :
  match predict_customer churn_model clv_model customer log with
  | (log', inl exc) =>
      (status_code exc = 503 /\ log' = log /\
       (churn_model = None \/ clv_model = None)) \/
      (status_code exc = 500 /\
       exists cm vm e,
         churn_model = Some cm /\ clv_model = Some vm /\
         score cm vm customer = inl e /\
         detail exc = "Prediction error: " ++ exc_str e)
  | (log', inr response) =>
      exists cm vm p v,
        churn_model = Some cm /\ clv_model = Some vm /\
        score cm vm customer = inr (p, v) /\
        response = decide p v /\
        log' = (log ++ success_events customer p v)%list
  end.
Proof.
  destruct churn_model as [cm |], clv_model as [vm |];
    try (left; repeat split; auto; fail).
  destruct (score cm vm customer) as [e | [p v]] eqn:E.
  - rewrite (predict_customer_fail cm vm customer e log E).
    right. split; [reflexivity |]. exists cm, vm, e. repeat split; auto.
  - rewrite (predict_customer_ok cm vm customer p v log E).
    exists cm, vm, p, v. repeat split; auto.
Qed.

(** The recommendation of a decision is one of the two strings of the band
    its risk tier names. *)
Lemma decide_band (p v : float) :
  churn_risk (decide p v) = band_name (prob_band_of p) /\
  In (recommendation (decide p v)) (band_recommendations (prob_band_of p)).
Proof.
  unfold decide. cbn [churn_risk recommendation].
  rewrite risk_level_band, get_recommendation_table.
  split; [reflexivity |].
  unfold band_recommendations. destruct (value_band_of _ _); cbn [In]; auto.
Qed.

(** X7: every response a single request returns, and every item of a batch
    that is returned, is consistent: its risk tier, recommendation and
    confidence are the ladders at the probability and value it reports, the
    recommendation is one of the two strings of the band the risk tier
    names, and the batch count is the number of items. *)
Theorem responses_consistent
    (churn_model : option ChurnModel) (clv_model : option ClvModel) :
  (forall customer log log' response,
     predict_customer churn_model clv_model customer log = (log', inr response) ->
     response_consistent response /\
     exists b, churn_risk response = band_name b /\
               In (recommendation response) (band_recommendations b)) /\
  (forall customers log log' batch,
     batch_predict churn_model clv_model customers log = (log', inr batch) ->
     count batch = Z.of_nat (List.length (predictions batch)) /\
     List.length (predictions batch) = List.length customers /\
     Forall (fun item =>
               exists response,
                 item = model_dump response /\ response_consistent response /\
                 exists b, churn_risk response = band_name b /\
                           In (recommendation response) (band_recommendations b))
            (predictions batch)).
Proof.
  split.
  - intros customer log log' response H.
    destruct churn_model as [cm |], clv_model as [vm |]; try discriminate H.
    destruct (score cm vm customer) as [e | [p v]] eqn:E.
    + rewrite (predict_customer_fail cm vm customer e log E) in H. discriminate H.
    + rewrite (predict_customer_ok cm vm customer p v log E) in H.
      injection H as _ <-.
      split; [repeat split |].
      exists (prob_band_of p). apply decide_band.
  - intros customers log log' batch H.
    destruct churn_model as [cm |], clv_model as [vm |]; try discriminate H.
    destruct (batch_scores_or_fails cm vm customers)
      as [Hall | (scored & customer & rest & e & -> & Hs & He)].
    + rewrite (batch_predict_ok cm vm customers log Hall) in H.
      injection H as _ <-. cbn [count predictions].
      rewrite length_map. split; [reflexivity |]. split; [reflexivity |].
      apply Forall_map.
      induction Hall as [| c cs (p & v & Hpv) _ IH]; constructor; [| exact IH].
      exists (decide p v). unfold batch_item. rewrite Hpv.
      split; [reflexivity |]. split; [repeat split |].
      exists (prob_band_of p). apply decide_band.
    + rewrite (batch_predict_fail cm vm scored rest customer e log Hs He) in H.
      discriminate H.
Qed.

(** ** The batch handler *)

(** X8: a batch over two lists put end to end is the batch over the first
    followed by the batch over the second: if the first raises, so does the
    whole, with nothing of the second list invoked; otherwise the second
    runs after it, and when both return, the predictions are put end to end
    and the counts added.  The empty batch returns no prediction and a count
    of zero, and invokes nothing. *)
Theorem batch_predict_app (cm : ChurnModel) (vm : ClvModel)
    (first second : list CustomerData) (log : list event) :
  batch_predict (Some cm) (Some vm) [] log =
    (log, inr {| predictions := []; count := 0 |}) /\
  batch_predict (Some cm) (Some vm) (first ++ second) log =
    match batch_predict (Some cm) (Some vm) first log with
    | (log1, inl exc) => (log1, inl exc)
    | (log1, inr batch1) =>
        match batch_predict (Some cm) (Some vm) second log1 with
        | (log2, inl exc) => (log2, inl exc)
        | (log2, inr batch2) =>
            (log2, inr {| predictions := predictions batch1 ++ predictions batch2;
                          count := count batch1 + count batch2 |})
        end
    end.
Proof.
  split; [reflexivity |].
  destruct (batch_scores_or_fails cm vm first)
    as [Hall1 | (scored & customer & rest & e & -> & Hs & He)].
  - rewrite (batch_predict_ok cm vm first log Hall1).
    destruct (batch_scores_or_fails cm vm second)
      as [Hall2 | (scored & customer & rest & e & -> & Hs & He)].
    + rewrite (batch_predict_ok cm vm second _ Hall2).
      rewrite (batch_predict_ok cm vm (first ++ second) log)
        by (apply Forall_app; split; assumption).
      cbn [predictions count].
      rewrite flat_map_app, map_app, length_app, Nat2Z.inj_add, app_assoc.
      reflexivity.
    + rewrite (batch_predict_fail cm vm scored rest customer e _ Hs He).
      rewrite app_assoc.
      rewrite (batch_predict_fail cm vm (first ++ scored) rest customer e log)
        by (try (apply Forall_app; split); assumption).
      rewrite flat_map_app, <- !app_assoc. reflexivity.
  - rewrite (batch_predict_fail cm vm scored rest customer e log Hs He).
    rewrite <- app_assoc. cbn [app].
    rewrite (batch_predict_fail cm vm scored (rest ++ second) customer e log Hs He).
    reflexivity.
Qed.

(** The components a single request invokes are those recorded for its
    customer. *)
Lemma request_events_of (cm : ChurnModel) (vm : ClvModel) (customer : CustomerData) :
  request_events cm vm customer = events_of cm vm customer.
Proof.
  unfold request_events, events_of.
  destruct (score cm vm customer) as [e | [p v]] eqn:E.
  - rewrite (predict_customer_fail cm vm customer e [] E). reflexivity.
  - rewrite (predict_customer_ok cm vm customer p v [] E). reflexivity.
Qed.

Lemma flat_map_request_events (cm : ChurnModel) (vm : ClvModel)
    (customers : list CustomerData) :
  flat_map (request_events cm vm) customers = flat_map (events_of cm vm) customers.
Proof.
  apply flat_map_ext. intros c. apply request_events_of.
Qed.

(** X9: a batch invokes exactly the components the single requests for its
    customers would, one customer after the other in the order of the
    input, up to and including the first customer that fails to score; when
    every customer scores, each model is called once per customer. *)
Theorem batch_invokes_as_single_requests (cm : ChurnModel) (vm : ClvModel)
    (log : list event) :
  (forall customers,
     Forall (scores_ok cm vm) customers ->
     fst (batch_predict (Some cm) (Some vm) customers log) =
       (log ++ flat_map (request_events cm vm) customers)%list /\
     List.length (filter is_model_call
                    (flat_map (request_events cm vm) customers)) =
       (2 * List.length customers)%nat) /\
  (forall scored customer rest,
     Forall (scores_ok cm vm) scored -> scores_fail cm vm customer ->
     fst (batch_predict (Some cm) (Some vm) (scored ++ customer :: rest) log) =
       (log ++ flat_map (request_events cm vm) (scored ++ [customer]))%list).
Proof.
  split.
  - intros customers Hall.
    rewrite (batch_predict_ok cm vm customers log Hall), flat_map_request_events.
    split; [reflexivity |].
    induction Hall as [| c cs (p & v & Hpv) _ IH]; [reflexivity |].
    cbn [flat_map]. rewrite filter_app, length_app, IH.
    unfold events_of. rewrite Hpv. cbn. lia.
  - intros scored customer rest Hs [e He].
    rewrite (batch_predict_fail cm vm scored rest customer e log Hs He).
    rewrite flat_map_request_events, flat_map_app. cbn [fst flat_map].
    rewrite app_nil_r.
    replace (events_of cm vm customer) with (failure_events cm customer)
      by (unfold events_of; rewrite He; reflexivity).
    reflexivity.
Qed.

Lemma batch_invokes_as_single_requests_witness :
  fst (batch_predict (Some (constant_churn f0_5)) (Some (clv_failing_at 7 "boom" f50000))
         [example_customer; customer_of_length 7; customer_of_length 3] []) =
  (request_events (constant_churn f0_5) (clv_failing_at 7 "boom" f50000) example_customer ++
   request_events (constant_churn f0_5) (clv_failing_at 7 "boom" f50000)
     (customer_of_length 7))%list.
Proof.
  pose proof (proj2 (batch_invokes_as_single_requests (constant_churn f0_5)
                       (clv_failing_at 7 "boom" f50000) [])
                [example_customer] (customer_of_length 7) [customer_of_length 3]) as H.
  cbn [app flat_map] in H. rewrite app_nil_r in H. apply H.
  - repeat constructor. eexists _, _. reflexivity.
  - eexists. reflexivity.
Defined.

(** ** The ladders and the order of floats *)

Ltac order_step :=
  match goal with
  | |- false = true -> _ => let H := fresh in intros H; discriminate H
  | |- true = true -> _ => intros _
  | |- context [PosDef.Pos.compare_cont Eq ?x ?y] =>
      change (PosDef.Pos.compare_cont Eq x y) with (Pos.compare x y)
  | |- context [Z.compare ?x ?y] => destruct (Z.compare_spec x y)
  | |- context [Pos.compare ?x ?y] => destruct (Pos.compare_spec x y)
  end.

Ltac order_cases :=
  unfold lt, le, SFltb, SFleb, SFcompare;
  repeat (cbv beta iota delta [CompOpp]; order_step);
  cbv beta iota delta [CompOpp];
  first [reflexivity | exfalso; lia].

(** The order of floats is transitive. *)
Lemma lt_le_trans (a b c : float) :
  lt a b = true -> le b c = true -> lt a c = true.
Proof.
  destruct a as [[] | [] | | [] ma ea], b as [[] | [] | | [] mb eb],
    c as [[] | [] | | [] mc ec]; order_cases.
Qed.

Lemma le_lt_trans (a b c : float) :
  le a b = true -> lt b c = true -> lt a c = true.
Proof.
  destruct a as [[] | [] | | [] ma ea], b as [[] | [] | | [] mb eb],
    c as [[] | [] | | [] mc ec]; order_cases.
Qed.

Lemma le_trans (a b c : float) :
  le a b = true -> le b c = true -> le a c = true.
Proof.
  destruct a as [[] | [] | | [] ma ea], b as [[] | [] | | [] mb eb],
    c as [[] | [] | | [] mc ec]; order_cases.
Qed.

(** A threshold below [p] is below every [q] from [p] on, and a threshold
    above [q] is above every [p] up to [q]. *)
Lemma gt_le_mono (p q t : float) :
  le p q = true -> gt p t = true -> gt q t = true.
Proof. intros Hle Hgt. exact (lt_le_trans t p q Hgt Hle). Qed.

Lemma lt_le_mono (p q t : float) :
  le p q = true -> lt q t = true -> lt p t = true.
Proof. intros Hle Hlt. exact (le_lt_trans p q t Hle Hlt). Qed.

(** No float is both at most [lo] and above [hi] when [lo] is not above
    [hi]. *)
Lemma le_gt_absurd (p lo hi : float) :
  lt hi lo = false -> le p lo = true -> gt p hi = true -> False.
Proof.
  intros Hord Hle Hgt. rewrite (lt_le_trans hi p lo Hgt Hle) in Hord.
  discriminate Hord.
Qed.

Lemma lt_gt_absurd (p lo hi : float) :
  lt hi lo = false -> lt p lo = true -> gt p hi = true -> False.
Proof.
  intros Hord Hlt Hgt.
  assert (Hle : le p lo = true).
  { revert Hlt. unfold lt, le, SFltb, SFleb.
    destruct (SFcompare p lo) as [[] |]; congruence. }
  exact (le_gt_absurd p lo hi Hord Hle Hgt).
Qed.

(** X10: the risk tier never falls when the probability rises: for
    [p <= q] the tier of [q] is at least that of [p] in the order Low,
    Medium, High. *)
Theorem risk_tier_monotone (p q : float) (Hle : le p q = true) :
  (band_rank (prob_band_of p) <= band_rank (prob_band_of q))%nat /\
  risk_level_predict p = band_name (prob_band_of p) /\
  risk_level_predict q = band_name (prob_band_of q) /\
  (risk_level_predict p = "High" -> risk_level_predict q = "High") /\
  (risk_level_predict q = "Low" -> risk_level_predict p = "Low").
Proof.
  pose proof (gt_le_mono p q f0_4 Hle) as H4.
  pose proof (gt_le_mono p q f0_2 Hle) as H2.
  split; [| split; [apply risk_level_band | split; [apply risk_level_band |]]];
    unfold risk_level_predict, prob_band_of;
    destruct (gt p f0_4), (gt p f0_2), (gt q f0_4), (gt q f0_2);
    cbn [band_rank];
    try (specialize (H4 eq_refl)); try (specialize (H2 eq_refl));
    try discriminate; try lia; split; intros H; try reflexivity;
    try discriminate H.
Qed.

Lemma risk_tier_monotone_witness :
  le f0_3 f0_5 = true /\
  (band_rank (prob_band_of f0_3) <= band_rank (prob_band_of f0_5))%nat.
Proof.
  split; [reflexivity |].
  exact (proj1 (risk_tier_monotone f0_3 f0_5 eq_refl)).
Defined.

Lemma confidence_of_rank_spec (p : float) :
  get_confidence_level p = confidence_of_rank (confidence_rank p).
Proof.
  unfold get_confidence_level, confidence_rank.
  destruct (_ || _); [reflexivity |].
  destruct (_ || _); [reflexivity |].
  destruct (_ || _); reflexivity.
Qed.

(** X11: the confidence tier never falls when the probability moves away
    from one half: for [p <= q <= 0.5] the tier of [p] is at least that of
    [q], and for [0.5 <= p <= q] the tier of [q] is at least that of [p],
    in the order Low, Moderate, High, Very High. *)
Theorem confidence_grows_away_from_half (p q : float) (Hle : le p q = true) :
  (forall x, get_confidence_level x = confidence_of_rank (confidence_rank x)) /\
  (le q f0_5 = true -> (confidence_rank q <= confidence_rank p)%nat) /\
  (le f0_5 p = true -> (confidence_rank p <= confidence_rank q)%nat).
Proof.
  split; [exact confidence_of_rank_spec |]. split.
  - intros Hq.
    pose proof (le_trans p q f0_5 Hle Hq) as Hp.
    assert (G : forall x t, le x f0_5 = true -> lt t f0_5 = false -> gt x t = false).
    { intros x t Hx Ht. destruct (gt x t) eqn:E; [| reflexivity].
      exfalso. exact (le_gt_absurd x f0_5 t Ht Hx E). }
    unfold confidence_rank.
    rewrite (G p f0_9 Hp eq_refl), (G p f0_8 Hp eq_refl), (G p f0_7 Hp eq_refl),
      (G q f0_9 Hq eq_refl), (G q f0_8 Hq eq_refl), (G q f0_7 Hq eq_refl).
    rewrite !orb_false_r.
    pose proof (lt_le_mono p q f0_1 Hle) as H1.
    pose proof (lt_le_mono p q f0_2 Hle) as H2.
    pose proof (lt_le_mono p q f0_3 Hle) as H3.
    destruct (lt q f0_1); [rewrite (H1 eq_refl); lia |].
    destruct (lt q f0_2);
      [rewrite (H2 eq_refl); destruct (lt p f0_1); lia |].
    destruct (lt q f0_3);
      [rewrite (H3 eq_refl); destruct (lt p f0_1), (lt p f0_2); lia |].
    lia.
  - intros Hp.
    pose proof (le_trans f0_5 p q Hp Hle) as Hq.
    assert (L : forall x t, le f0_5 x = true -> lt f0_5 t = false -> lt x t = false).
    { intros x t Hx Ht. destruct (lt x t) eqn:E; [| reflexivity].
      rewrite (le_lt_trans f0_5 x t Hx E) in Ht. discriminate Ht. }
    unfold confidence_rank.
    rewrite (L p f0_1 Hp eq_refl), (L p f0_2 Hp eq_refl), (L p f0_3 Hp eq_refl),
      (L q f0_1 Hq eq_refl), (L q f0_2 Hq eq_refl), (L q f0_3 Hq eq_refl).
    cbn [orb].
    pose proof (gt_le_mono p q f0_9 Hle) as H9.
    pose proof (gt_le_mono p q f0_8 Hle) as H8.
    pose proof (gt_le_mono p q f0_7 Hle) as H7.
    destruct (gt p f0_9); [rewrite (H9 eq_refl); lia |].
    destruct (gt p f0_8);
      [rewrite (H8 eq_refl); destruct (gt q f0_9); lia |].
    destruct (gt p f0_7);
      [rewrite (H7 eq_refl); destruct (gt q f0_9), (gt q f0_8); lia |].
    lia.
Qed.

Lemma confidence_grows_away_from_half_witness :
  le f0_1 f0_3 = true /\ le f0_3 f0_5 = true /\
  (confidence_rank f0_3 <= confidence_rank f0_1)%nat.
Proof.
  split; [reflexivity |]. split; [reflexivity |].
  exact (proj1 (proj2 (confidence_grows_away_from_half f0_1 f0_3 eq_refl)) eq_refl).
Defined.

(** X12: for a probability that is not NaN, the risk tier and the
    confidence tier are one of nine pairs: Low risk never comes with Low
    confidence, and Medium risk only with Moderate or Low confidence; each
    of the nine pairs is reached by some probability of [0,1], and the pair
    of a NaN, Low with Low, is none of them. *)
Theorem tier_pairs_reachable (p : float) (Hnan : is_nan p = false) :
  In (risk_level_predict p, get_confidence_level p) tier_pairs /\
  (forall pair, In pair tier_pairs ->
     exists x, in_unit x = true /\
               (risk_level_predict x, get_confidence_level x) = pair) /\
  (risk_level_predict S754_nan, get_confidence_level S754_nan) = ("Low", "Low") /\
  ~ In ("Low", "Low") tier_pairs.
Proof.
  split; [| split; [| split]].
  - unfold risk_level_predict, get_confidence_level, tier_pairs.
    destruct (gt p f0_4) eqn:H4.
    + destruct (_ || _); [cbn [In]; auto 10 |].
      destruct (_ || _); [cbn [In]; auto 10 |].
      destruct (_ || _); cbn [In]; auto 10.
    + pose proof (not_gt_le p f0_4 Hnan eq_refl H4) as L4.
      destruct (gt p f0_2) eqn:H2.
      * assert (E1 : lt p f0_1 = false).
        { destruct (lt p f0_1) eqn:E; [| reflexivity].
          exfalso. exact (lt_gt_absurd p f0_1 f0_2 eq_refl E H2). }
        assert (E2 : lt p f0_2 = false).
        { destruct (lt p f0_2) eqn:E; [| reflexivity].
          exfalso. exact (lt_gt_absurd p f0_2 f0_2 eq_refl E H2). }
        assert (E8 : gt p f0_8 = false).
        { destruct (gt p f0_8) eqn:E; [| reflexivity].
          exfalso. exact (le_gt_absurd p f0_4 f0_8 eq_refl L4 E). }
        assert (E9 : gt p f0_9 = false).
        { destruct (gt p f0_9) eqn:E; [| reflexivity].
          exfalso. exact (le_gt_absurd p f0_4 f0_9 eq_refl L4 E). }
        rewrite E1, E2, E8, E9. cbn [orb].
        destruct (_ || _); cbn [In]; auto 10.
      * pose proof (not_gt_le p f0_2 Hnan eq_refl H2) as L2.
        rewrite (le_lt_trans p f0_2 f0_3 L2 eq_refl). cbn [orb].
        destruct (_ || _); [cbn [In]; auto 10 |].
        destruct (_ || _); cbn [In]; auto 10.
  - intros pair Hin. unfold tier_pairs in Hin. cbn [In] in Hin.
    destruct Hin as [<- | [<- | [<- | [<- | [<- | [<- | [<- | [<- | [<- | []]]]]]]]]].
    + exists f0. split; reflexivity.
    + exists f0_1. split; reflexivity.
    + exists f0_2. split; reflexivity.
    + exists f0_25. split; reflexivity.
    + exists f0_3. split; reflexivity.
    + exists f0_5. split; reflexivity.
    + exists f0_8. split; reflexivity.
    + exists f0_9. split; reflexivity.
    + exists f1. split; reflexivity.
  - reflexivity.
  - unfold tier_pairs. cbn [In]. intros H.
    repeat destruct H as [H | H]; try discriminate H. exact H.
Qed.

Lemma tier_pairs_reachable_witness :
  is_nan f0_3 = false /\
  In (risk_level_predict f0_3, get_confidence_level f0_3) tier_pairs.
Proof.
  split; [reflexivity |].
  exact (proj1 (tier_pairs_reachable f0_3 eq_refl)).
Defined.
